(** * Disaster-response agents: a shallow embedding of the three labs

    The development follows the Python sources:
    - [lab2/perception_and_environment_modelling.py]: the environment model
      ([DisasterEnvironment]) with its clamped conditions, threshold rules and
      event identifiers;
    - [lab3/rescue_respond_agent.py]: the six-state response machine
      ([IdleState] ... [CompletedState]) over the agent's goals and trace;
    - [lab4/fipa_acl.py]: the coordinator, responder and sensor roles of the
      request/response protocol.

    Python values are kept as the interpreter has them: integers are
    unbounded ([Z]), floats are IEEE binary64 ([PrimFloat.float]), decoded JSON
    is a tree of such values, and a call either returns or raises.  Library
    calls whose result the program cannot determine (the clock, the random
    source, [json.dumps], [round]) are inputs of the functions that use them. *)

From Stdlib Require Import ZArith NArith List String Ascii Bool Lia.
From Stdlib Require Import PrimFloat SpecFloat FloatOps FloatAxioms.
From Stdlib Require Import DecimalString DecimalN.
From Stdlib Require Import Sorted Permutation FinFun.
Import ListNotations.

Set Warnings "-register-all,-inexact-float".
Local Open Scope string_scope.
Local Open Scope Z_scope.

(* ================================================================== *)
(** * Part I. Definitions                                              *)
(* ================================================================== *)

(** ** Python values and control *)

Module Py.

(** The exception classes that the modelled code can meet. *)
Inductive exn : Type :=
| JSONDecodeError
| AttributeError
| TypeError
| KeyError
| ValueError
| ZeroDivisionError
| OverflowError
| RecursionError.

Definition exn_eqb (a b : exn) : bool :=
  match a, b with
  | JSONDecodeError, JSONDecodeError | AttributeError, AttributeError
  | TypeError, TypeError | KeyError, KeyError | ValueError, ValueError
  | ZeroDivisionError, ZeroDivisionError | OverflowError, OverflowError
  | RecursionError, RecursionError => true
  | _, _ => false
  end.

(** A call returns a value or raises. *)
Inductive outcome (A : Type) : Type :=
| Ret (a : A)
| Raise (e : exn).
Arguments Ret {A} a.
Arguments Raise {A} e.

(** Code that mutates an object of type [W] and may raise; what was
    written before the exception stays written. *)
Definition M (W A : Type) : Type := W -> outcome A * W.

Definition ret {W A} (a : A) : M W A := fun w => (Ret a, w).
Definition raise {W A} (e : exn) : M W A := fun w => (Raise e, w).
Definition bind {W A B} (c : M W A) (k : A -> M W B) : M W B :=
  fun w => match c w with
           | (Ret a, w') => k a w'
           | (Raise e, w') => (Raise e, w')
           end.
Definition get {W} : M W W := fun w => (Ret w, w).
Definition modify {W} (f : W -> W) : M W unit := fun w => (Ret tt, f w).
Definition lift {W A} (o : outcome A) : M W A := fun w => (o, w).

(** [try: body except cls: handler]. *)
Definition try_except {W A} (body : M W A) (cls : exn) (handler : M W A) : M W A :=
  fun w => match body w with
           | (Raise e, w') => if exn_eqb e cls then handler w' else (Raise e, w')
           | r => r
           end.

(** [for x in xs: body x]. *)
Fixpoint for_each {W A} (xs : list A) (body : A -> M W unit) : M W unit :=
  match xs with
  | [] => ret tt
  | x :: rest => bind (body x) (fun _ => for_each rest body)
  end.

(** *** Numbers *)

(** A Python number: an [int] or a [float]. *)
Inductive pynum : Type :=
| PInt (z : Z)
| PFloat (f : float).

(** The float nearest to an integer (ties to even); infinite when the integer
    is beyond the double range. *)
Definition Z2SF (z : Z) : spec_float := binary_normalize prec emax z 0 false.
Definition float_of_Z (z : Z) : float := SF2Prim (Z2SF z).

(** [float(z)] as the arithmetic operators convert an [int] operand. *)
Definition float_of_int (z : Z) : outcome float :=
  match Z2SF z with
  | S754_infinity _ => Raise OverflowError
  | sf => Ret (SF2Prim sf)
  end.

(** Comparison of a float with an integer is exact in Python: the float
    [m * 2^e] against [z], no rounding of [z]. *)
Definition SF_cmp_Z (x : spec_float) (z : Z) : option comparison :=
  match x with
  | S754_nan => None
  | S754_infinity s => Some (if s then Lt else Gt)
  | S754_zero _ => Some (0 ?= z)
  | S754_finite s m e =>
      let v := if s then Z.neg m else Z.pos m in
      Some (if 0 <=? e then (v * 2 ^ e ?= z) else (v ?= z * 2 ^ (- e)))
  end.

Definition is_Lt (c : option comparison) : bool :=
  match c with Some Lt => true | _ => false end.
Definition is_Gt (c : option comparison) : bool :=
  match c with Some Gt => true | _ => false end.
Definition is_Le (c : option comparison) : bool :=
  match c with Some Lt | Some Eq => true | _ => false end.
Definition is_Ge (c : option comparison) : bool :=
  match c with Some Gt | Some Eq => true | _ => false end.

(** [a < b] and [a <= b]; [a > b] is [b < a] and [a >= b] is [b <= a]. *)
Definition py_lt (a b : pynum) : bool :=
  match a, b with
  | PInt x, PInt y => x <? y
  | PFloat x, PFloat y => PrimFloat.ltb x y
  | PFloat x, PInt y => is_Lt (SF_cmp_Z (Prim2SF x) y)
  | PInt x, PFloat y => is_Gt (SF_cmp_Z (Prim2SF y) x)
  end.

Definition py_le (a b : pynum) : bool :=
  match a, b with
  | PInt x, PInt y => x <=? y
  | PFloat x, PFloat y => PrimFloat.leb x y
  | PFloat x, PInt y => is_Le (SF_cmp_Z (Prim2SF x) y)
  | PInt x, PFloat y => is_Ge (SF_cmp_Z (Prim2SF y) x)
  end.

Definition py_gt (a b : pynum) : bool := py_lt b a.
Definition py_ge (a b : pynum) : bool := py_le b a.

(** [min(a, b)] keeps [a] unless [b < a]; [max(a, b)] keeps [a] unless
    [b > a]. *)
Definition py_min (a b : pynum) : pynum := if py_lt b a then b else a.
Definition py_max (a b : pynum) : pynum := if py_gt b a then b else a.

(** [x + d] for a float [d]: an [int] left operand is converted first. *)
Definition py_add_float (x : pynum) (d : float) : outcome pynum :=
  match x with
  | PFloat f => Ret (PFloat (PrimFloat.add f d))
  | PInt z => match float_of_int z with
              | Ret f => Ret (PFloat (PrimFloat.add f d))
              | Raise e => Raise e
              end
  end.

(** *** Decoded JSON *)

(** What [json.loads] builds: [None], [bool], [int], [float], [str], [list]
    and [dict] (keys in insertion order, each key once).  A [str] is kept as
    its UTF-8 bytes. *)
Inductive json : Type :=
| JNull
| JBool (b : bool)
| JInt (z : Z)
| JFloat (f : float)
| JStr (s : string)
| JArr (l : list json)
| JObj (d : list (string * json)).

Definition dict : Type := list (string * json).

Fixpoint dict_get (k : string) (d : dict) : option json :=
  match d with
  | [] => None
  | (k', v) :: rest => if String.eqb k k' then Some v else dict_get k rest
  end.

(** [d[k] = v]: an existing key keeps its place. *)
Fixpoint dict_set (k : string) (v : json) (d : dict) : dict :=
  match d with
  | [] => [(k, v)]
  | (k', v') :: rest =>
      if String.eqb k k' then (k, v) :: rest else (k', v') :: dict_set k v rest
  end.

(** [obj.get(k, default)]: only a [dict] has the method. *)
Definition py_get (obj : json) (k : string) (default : json) : outcome json :=
  match obj with
  | JObj d => Ret (match dict_get k d with Some v => v | None => default end)
  | _ => Raise AttributeError
  end.

(** A decoded value as a number, when it is one ([bool] is an [int]). *)
Definition as_num (v : json) : option pynum :=
  match v with
  | JInt z => Some (PInt z)
  | JBool b => Some (PInt (if b then 1 else 0))
  | JFloat f => Some (PFloat f)
  | _ => None
  end.

(** [v >= k] for an integer constant [k]: ordering a non-number against an
    [int] raises [TypeError]. *)
Definition py_ge_int (v : json) (k : Z) : outcome bool :=
  match as_num v with
  | Some n => Ret (py_ge n (PInt k))
  | None => Raise TypeError
  end.

Definition json_of_num (n : pynum) : json :=
  match n with
  | PInt z => JInt z
  | PFloat f => JFloat f
  end.

(** [a - b]. *)
Definition py_sub (a b : pynum) : outcome pynum :=
  match a, b with
  | PInt x, PInt y => Ret (PInt (x - y))
  | PFloat x, PFloat y => Ret (PFloat (PrimFloat.sub x y))
  | PInt x, PFloat y =>
      match float_of_int x with
      | Ret f => Ret (PFloat (PrimFloat.sub f y))
      | Raise e => Raise e
      end
  | PFloat x, PInt y =>
      match float_of_int y with
      | Ret f => Ret (PFloat (PrimFloat.sub x f))
      | Raise e => Raise e
      end
  end.

Fixpoint repeat_string (s : string) (k : nat) : string :=
  match k with
  | O => EmptyString
  | S k' => s ++ repeat_string s k'
  end.

Fixpoint repeat_list {A} (l : list A) (k : nat) : list A :=
  match k with
  | O => []
  | S k' => (l ++ repeat_list l k')%list
  end.

(** [v * k] for a small integer constant [k]: a number is multiplied, a
    [str] or a [list] is repeated, [None] and a [dict] raise. *)
Definition py_mul_int (v : json) (k : Z) : outcome json :=
  match v with
  | JInt z => Ret (JInt (z * k))
  | JBool b => Ret (JInt ((if b then 1 else 0) * k))
  | JFloat f => Ret (JFloat (PrimFloat.mul f (float_of_Z k)))
  | JStr s => Ret (JStr (repeat_string s (Z.to_nat k)))
  | JArr l => Ret (JArr (repeat_list l (Z.to_nat k)))
  | JNull | JObj _ => Raise TypeError
  end.

(** [min(a, held)] for a decoded [a] and a number [held]: [held] when
    [held < a], else [a]; ordering a number against a non-number raises. *)
Definition py_min_with (a : json) (held : pynum) : outcome json :=
  match as_num a with
  | Some n => Ret (if py_lt held n then json_of_num held else a)
  | None => Raise TypeError
  end.

(** [str(z)]. *)
Definition str_of_Z (z : Z) : string :=
  match z with
  | Z.neg p => "-" ++ NilEmpty.string_of_uint (Pos.to_uint p)
  | _ => NilEmpty.string_of_uint (N.to_uint (Z.to_N z))
  end.

(** *** Formatting *)

Definition decimal (n : N) : string := NilEmpty.string_of_uint (N.to_uint n).

Fixpoint zeros (k : nat) : string :=
  match k with
  | O => EmptyString
  | S k' => String "0" (zeros k')
  end.

(** [f"{n:0wd}"] for a non-negative [n]. *)
Definition format_0d (w : nat) (n : N) : string :=
  let s := decimal n in zeros (w - String.length s) ++ s.

(** Reading a run of decimal digits back. *)
Definition parse_decimal (s : string) : option N :=
  option_map N.of_uint (NilEmpty.uint_of_string s).

End Py.
Export Py.

Declare Scope py_scope.
Delimit Scope py_scope with py.
Notation "x <- c ;; k" := (bind c (fun x => k))
  (at level 61, c at next level, right associativity) : py_scope.
Notation "c ;;; k" := (bind c (fun _ => k))
  (at level 61, right associativity) : py_scope.

(* ------------------------------------------------------------------ *)
(** ** The JSON text format                                            *)
(* ------------------------------------------------------------------ *)

(** [json.loads] as CPython's decoder reads a text, for the uses that need
    the decoder itself on a given text; the labs take the decoder as an
    input.  The interpreter's recursion limit is not part of it. *)
Module Json.

Definition code (c : ascii) : N := N_of_ascii c.
Definition chr (n : N) : ascii := ascii_of_N n.
Definition quote : ascii := chr 34.
Definition backslash : ascii := chr 92.

Definition is_ws (c : ascii) : bool :=
  let n := code c in
  (n =? 32)%N || (n =? 9)%N || (n =? 10)%N || (n =? 13)%N.

Definition is_digit (c : ascii) : bool :=
  let n := code c in (48 <=? n)%N && (n <=? 57)%N.

Fixpoint skip_ws (s : string) : string :=
  match s with
  | String c rest => if is_ws c then skip_ws rest else s
  | EmptyString => s
  end.

(** [s] starts with [p]: what follows [p]. *)
Fixpoint strip_prefix (p s : string) : option string :=
  match p, s with
  | EmptyString, _ => Some s
  | String a p', String b s' => if Ascii.eqb a b then strip_prefix p' s' else None
  | String _ _, EmptyString => None
  end.

(** The longest run of digits at the head of [s], and the rest. *)
Fixpoint take_digits (s : string) : string * string :=
  match s with
  | String c rest =>
      if is_digit c then let (ds, r) := take_digits rest in (String c ds, r)
      else (EmptyString, s)
  | EmptyString => (EmptyString, EmptyString)
  end.

Fixpoint digits_value (acc : Z) (ds : string) : Z :=
  match ds with
  | String c rest => digits_value (10 * acc + Z.of_N (code c - 48)) rest
  | EmptyString => acc
  end.

(** [float(text)] for the decimal [(-1)^neg * m * 10^e]: the nearest
    double, ties to even. *)
Definition decimal_to_float (neg : bool) (m e : Z) : float :=
  SF2Prim
    (match m with
     | Z.pos p =>
         if 0 <=? e then binary_round prec emax neg (Z.to_pos (m * 10 ^ e)) 0
         else
           let '(mz, ez, lz) := SFdiv_core_binary prec emax m 0 (10 ^ (- e)) 0 in
           binary_round_aux prec emax neg mz ez lz
     | _ => S754_zero neg
     end).

(** The interpreter's default limit on the digits of an integer literal. *)
Definition int_max_str_digits : nat := 4300.

(** The number at the head of [s], if one is there: an optional minus, then
    a zero or a digit run that does not start with zero, then optionally a
    dot with digits, then optionally an exponent (e or E, an optional sign,
    digits).  A dot or an exponent mark that no digit follows is not part of
    the number. *)
Definition scan_number (s : string) : option (outcome json * string) :=
  let (neg, s1) := match s with
                   | String "-" r => (true, r)
                   | _ => (false, s)
                   end in
  let int_part :=
    match s1 with
    | String "0" r => Some ("0", r)
    | String c _ => if is_digit c then Some (take_digits s1) else None
    | EmptyString => None
    end in
  match int_part with
  | None => None
  | Some (ds, s2) =>
      let (frac, s3) :=
        match s2 with
        | String "." r =>
            let (fd, r') := take_digits r in
            match fd with EmptyString => (None, s2) | _ => (Some fd, r') end
        | _ => (None, s2)
        end in
      let (exp, s4) :=
        match s3 with
        | String c r =>
            if Ascii.eqb c "e" || Ascii.eqb c "E" then
              let (eneg, r1) := match r with
                                | String "-" r' => (true, r')
                                | String "+" r' => (false, r')
                                | _ => (false, r)
                                end in
              let (ed, r2) := take_digits r1 in
              match ed with
              | EmptyString => (None, s3)
              | _ => (Some (if eneg then - digits_value 0 ed else digits_value 0 ed), r2)
              end
            else (None, s3)
        | EmptyString => (None, s3)
        end in
      match frac, exp with
      | None, None =>
          if (int_max_str_digits <? String.length ds)%nat
          then Some (Raise ValueError, s4)
          else Some (Ret (JInt (if neg then - digits_value 0 ds else digits_value 0 ds)), s4)
      | _, _ =>
          let fd := match frac with Some fd => fd | None => EmptyString end in
          let e := match exp with Some e => e | None => 0 end in
          Some (Ret (JFloat (decimal_to_float neg (digits_value 0 (ds ++ fd))
                                              (e - Z.of_nat (String.length fd)))), s4)
      end
  end.

Definition hex_value (c : ascii) : option N :=
  let n := code c in
  if (48 <=? n)%N && (n <=? 57)%N then Some (n - 48)%N
  else if (65 <=? n)%N && (n <=? 70)%N then Some (n - 55)%N
  else if (97 <=? n)%N && (n <=? 102)%N then Some (n - 87)%N
  else None.

(** The four hex digits after [\u]. *)
Definition hex4 (s : string) : option (N * string) :=
  match s with
  | String a (String b (String c (String d rest))) =>
      match hex_value a, hex_value b, hex_value c, hex_value d with
      | Some x, Some y, Some z, Some w => Some (((x * 16 + y) * 16 + z) * 16 + w, rest)%N
      | _, _, _, _ => None
      end
  | _ => None
  end.

Definition bytes (l : list N) : string :=
  fold_right (fun n s => String (chr n) s) EmptyString l.

(** The UTF-8 bytes of a code point (a lone surrogate is kept, as three
    bytes). *)
Definition utf8 (cp : N) : string :=
  (if cp <? 128 then bytes [cp]
   else if cp <? 2048 then bytes [192 + cp / 64; 128 + cp mod 64]
   else if cp <? 65536 then
     bytes [224 + cp / 4096; 128 + (cp / 64) mod 64; 128 + cp mod 64]
   else bytes [240 + cp / 262144; 128 + (cp / 4096) mod 64;
               128 + (cp / 64) mod 64; 128 + cp mod 64])%N.

(** The text of a string after its opening quote, up to the closing one. *)
Fixpoint scan_string (fuel : nat) (acc s : string) : option (string * string) :=
  match fuel with
  | O => None
  | S n =>
      match s with
      | EmptyString => None
      | String c rest =>
          if Ascii.eqb c quote then Some (acc, rest)
          else if Ascii.eqb c backslash then
            match rest with
            | EmptyString => None
            | String e rest' =>
                let simple (b : N) := scan_string n (acc ++ bytes [b]) rest' in
                if Ascii.eqb e quote then simple 34%N
                else if Ascii.eqb e backslash then simple 92%N
                else if Ascii.eqb e "/" then simple 47%N
                else if Ascii.eqb e "b" then simple 8%N
                else if Ascii.eqb e "f" then simple 12%N
                else if Ascii.eqb e "n" then simple 10%N
                else if Ascii.eqb e "r" then simple 13%N
                else if Ascii.eqb e "t" then simple 9%N
                else if Ascii.eqb e "u" then
                  match hex4 rest' with
                  | None => None
                  | Some (hi, r1) =>
                      let single := scan_string n (acc ++ utf8 hi) r1 in
                      if (55296 <=? hi)%N && (hi <=? 56319)%N then
                        match r1 with
                        | String b1 (String b2 r2) =>
                            if Ascii.eqb b1 backslash && Ascii.eqb b2 "u" then
                              match hex4 r2 with
                              | Some (lo, r3) =>
                                  if (56320 <=? lo)%N && (lo <=? 57343)%N then
                                    scan_string n
                                      (acc ++ utf8 (65536 + (hi - 55296) * 1024
                                                    + (lo - 56320))%N) r3
                                  else single
                              | None => single
                              end
                            else single
                        | _ => single
                        end
                      else single
                  end
                else None
            end
          else if (code c <? 32)%N then None
          else scan_string n (acc ++ String c EmptyString) rest
      end
  end.

Definition starts_with (c : ascii) (s : string) : option string :=
  match s with
  | String c' rest => if Ascii.eqb c c' then Some rest else None
  | EmptyString => None
  end.

(** The value at the head of [s] and what follows it;
    [scan_members] reads an object from a key on, [scan_elements] an array
    from an element on. *)
Fixpoint scan_once (fuel : nat) (s : string) : outcome (json * string) :=
  match fuel with
  | O => Raise RecursionError
  | S n =>
      match s with
      | EmptyString => Raise JSONDecodeError
      | String c rest =>
          if Ascii.eqb c quote then
            match scan_string (String.length rest) EmptyString rest with
            | Some (str, r) => Ret (JStr str, r)
            | None => Raise JSONDecodeError
            end
          else if Ascii.eqb c "{" then
            let r := skip_ws rest in
            match starts_with "}" r with
            | Some r' => Ret (JObj [], r')
            | None => scan_members n [] r
            end
          else if Ascii.eqb c "[" then
            let r := skip_ws rest in
            match starts_with "]" r with
            | Some r' => Ret (JArr [], r')
            | None => scan_elements n [] r
            end
          else
            match strip_prefix "null" s, strip_prefix "true" s, strip_prefix "false" s with
            | Some r, _, _ => Ret (JNull, r)
            | _, Some r, _ => Ret (JBool true, r)
            | _, _, Some r => Ret (JBool false, r)
            | None, None, None =>
                match scan_number s with
                | Some (Ret v, r) => Ret (v, r)
                | Some (Raise e, _) => Raise e
                | None =>
                    match strip_prefix "NaN" s, strip_prefix "Infinity" s,
                          strip_prefix "-Infinity" s with
                    | Some r, _, _ => Ret (JFloat nan, r)
                    | _, Some r, _ => Ret (JFloat infinity, r)
                    | _, _, Some r => Ret (JFloat neg_infinity, r)
                    | None, None, None => Raise JSONDecodeError
                    end
                end
            end
      end
  end

with scan_members (fuel : nat) (acc : dict) (s : string) : outcome (json * string) :=
  match fuel with
  | O => Raise RecursionError
  | S n =>
      match starts_with quote s with
      | None => Raise JSONDecodeError
      | Some r =>
          match scan_string (String.length r) EmptyString r with
          | None => Raise JSONDecodeError
          | Some (key, r1) =>
              match starts_with ":" (skip_ws r1) with
              | None => Raise JSONDecodeError
              | Some r2 =>
                  match scan_once n (skip_ws r2) with
                  | Raise e => Raise e
                  | Ret (v, r3) =>
                      let acc' := dict_set key v acc in
                      match skip_ws r3 with
                      | String c r4 =>
                          if Ascii.eqb c "}" then Ret (JObj acc', r4)
                          else if Ascii.eqb c "," then scan_members n acc' (skip_ws r4)
                          else Raise JSONDecodeError
                      | EmptyString => Raise JSONDecodeError
                      end
                  end
              end
          end
      end
  end

with scan_elements (fuel : nat) (acc : list json) (s : string) : outcome (json * string) :=
  match fuel with
  | O => Raise RecursionError
  | S n =>
      match scan_once n s with
      | Raise e => Raise e
      | Ret (v, r) =>
          let acc' := (acc ++ [v])%list in
          match skip_ws r with
          | String c r1 =>
              if Ascii.eqb c "]" then Ret (JArr acc', r1)
              else if Ascii.eqb c "," then scan_elements n acc' (skip_ws r1)
              else Raise JSONDecodeError
          | EmptyString => Raise JSONDecodeError
          end
      end
  end.

(** [json.loads(s)]: one value, white space around it, nothing else. *)
Definition loads (s : string) : outcome json :=
  match scan_once (2 * String.length s + 2) (skip_ws s) with
  | Ret (v, rest) =>
      match skip_ws rest with
      | EmptyString => Ret v
      | String _ _ => Raise JSONDecodeError
      end
  | Raise e => Raise e
  end.

(** A string between quotes. *)
Definition quoted (s : string) : string :=
  String quote (s ++ String quote EmptyString).

(** The characters [json.dumps] writes as they are: printable ASCII except
    the quote and the backslash. *)
Definition is_plain (c : ascii) : bool :=
  let n := code c in
  (32 <=? n)%N && (n <? 127)%N && negb (n =? 34)%N && negb (n =? 92)%N.

Fixpoint all_plain (s : string) : bool :=
  match s with
  | EmptyString => true
  | String c rest => is_plain c && all_plain rest
  end.

(** The text [json.dumps] writes for a value built from [None], [bool],
    [int] within the digit limit, plain strings, lists and dicts; [None] for
    any other value, whose text is not given here. *)
Fixpoint dumps (v : json) : option string :=
  match v with
  | JNull => Some "null"
  | JBool true => Some "true"
  | JBool false => Some "false"
  | JInt z =>
      if (int_max_str_digits <? String.length (str_of_Z (Z.abs z)))%nat then None
      else Some (str_of_Z z)
  | JFloat _ => None
  | JStr s => if all_plain s then Some (quoted s) else None
  | JArr l =>
      let fix items (l : list json) : option string :=
        match l with
        | [] => Some EmptyString
        | [x] => dumps x
        | x :: rest =>
            match dumps x, items rest with
            | Some a, Some b => Some (a ++ ", " ++ b)
            | _, _ => None
            end
        end in
      match items l with
      | Some body => Some ("[" ++ body ++ "]")
      | None => None
      end
  | JObj d =>
      let fix members (d : list (string * json)) : option string :=
        match d with
        | [] => Some EmptyString
        | (k, x) :: rest =>
            match (if all_plain k then dumps x else None), members rest with
            | Some a, Some b =>
                Some (quoted k ++ ": " ++ a ++
                      match rest with [] => EmptyString | _ => ", " ++ b end)
            | _, _ => None
            end
        end in
      match members d with
      | Some body => Some ("{" ++ body ++ "}")
      | None => None
      end
  end.

(** [dumps] in the type the labs take an encoder in; right on the values
    [dumps] covers. *)
Definition dumps_plain (v : json) : outcome string :=
  match dumps v with
  | Some s => Ret s
  | None => Raise ValueError
  end.

End Json.

(* ------------------------------------------------------------------ *)
(** ** Lab 2: the environment model                                    *)
(* ------------------------------------------------------------------ *)

Module Lab2.
Local Open Scope py_scope.

Inductive DisasterType : Type :=
| EARTHQUAKE | FLOOD | FIRE | HURRICANE | TORNADO | TSUNAMI.

Inductive SeverityLevel : Type :=
| MINIMAL | LOW | MODERATE | HIGH | CRITICAL.

(** [severity.value] and [severity.name]. *)
Definition severity_value (s : SeverityLevel) : Z :=
  match s with
  | MINIMAL => 1 | LOW => 2 | MODERATE => 3 | HIGH => 4 | CRITICAL => 5
  end.

Definition severity_name (s : SeverityLevel) : string :=
  match s with
  | MINIMAL => "MINIMAL" | LOW => "LOW" | MODERATE => "MODERATE"
  | HIGH => "HIGH" | CRITICAL => "CRITICAL"
  end.

Record EnvironmentalCondition : Type := mkCondition {
  timestamp : string;
  temperature : pynum;
  humidity : pynum;
  wind_speed : pynum;
  air_quality : Z;
  water_level : pynum;
  seismic_activity : float
}.

Record DisasterEvent : Type := mkEvent {
  event_id : string;
  disaster_type : DisasterType;
  severity : SeverityLevel;
  ev_location : string;
  ev_timestamp : string;
  affected_area_km2 : float;
  casualties_estimated : Z;
  damage_cost_usd : float;
  description : string
}.

Record DisasterEnvironment : Type := mkEnv {
  location : string;
  current_conditions : EnvironmentalCondition;
  active_disasters : list DisasterEvent;
  event_history : list DisasterEvent;
  event_counter : N;
  conditions_history : list EnvironmentalCondition
}.

Definition set_conditions (f : EnvironmentalCondition -> EnvironmentalCondition)
  : M DisasterEnvironment unit :=
  modify (fun e => mkEnv (location e) (f (current_conditions e))
                         (active_disasters e) (event_history e)
                         (event_counter e) (conditions_history e)).

Definition set_temperature (v : pynum) (c : EnvironmentalCondition) :=
  mkCondition (timestamp c) v (humidity c) (wind_speed c) (air_quality c)
              (water_level c) (seismic_activity c).
Definition set_humidity (v : pynum) (c : EnvironmentalCondition) :=
  mkCondition (timestamp c) (temperature c) v (wind_speed c) (air_quality c)
              (water_level c) (seismic_activity c).
Definition set_wind_speed (v : pynum) (c : EnvironmentalCondition) :=
  mkCondition (timestamp c) (temperature c) (humidity c) v (air_quality c)
              (water_level c) (seismic_activity c).
Definition set_air_quality (v : Z) (c : EnvironmentalCondition) :=
  mkCondition (timestamp c) (temperature c) (humidity c) (wind_speed c) v
              (water_level c) (seismic_activity c).
Definition set_water_level (v : pynum) (c : EnvironmentalCondition) :=
  mkCondition (timestamp c) (temperature c) (humidity c) (wind_speed c)
              (air_quality c) v (seismic_activity c).
Definition set_seismic_activity (v : float) (c : EnvironmentalCondition) :=
  mkCondition (timestamp c) (temperature c) (humidity c) (wind_speed c)
              (air_quality c) (water_level c) v.
Definition set_timestamp (v : string) (c : EnvironmentalCondition) :=
  mkCondition v (temperature c) (humidity c) (wind_speed c)
              (air_quality c) (water_level c) (seismic_activity c).

(** [self.current_conditions.<field> += d] for a float [d]. *)
Definition add_float (field : EnvironmentalCondition -> pynum)
    (set : pynum -> EnvironmentalCondition -> EnvironmentalCondition)
    (d : float) : M DisasterEnvironment unit :=
  e <- get ;;
  v <- lift (py_add_float (field (current_conditions e)) d) ;;
  set_conditions (set v).

(** [self.current_conditions.<field> = max(lo, min(hi, <field>))]. *)
Definition clamp (lo hi : Z) (x : pynum) : pynum :=
  py_max (PInt lo) (py_min (PInt hi) x).

Definition clamp_field (field : EnvironmentalCondition -> pynum)
    (set : pynum -> EnvironmentalCondition -> EnvironmentalCondition)
    (lo hi : Z) : M DisasterEnvironment unit :=
  set_conditions (fun c => set (clamp lo hi (field c)) c).

(** [__init__] and [_initialize_conditions]; [now] is the clock's reading. *)
Definition _initialize_conditions (now : string) : EnvironmentalCondition :=
  mkCondition now (PFloat 22.0) (PFloat 60.0) (PFloat 15.0) 50 (PFloat 2.0) 0.0.

Definition init (loc now : string) : DisasterEnvironment :=
  mkEnv loc (_initialize_conditions now) [] [] 0%N [].

(** What one call of [update_conditions] draws from [random] and the clock. *)
Record update_draws : Type := mkUpdateDraws {
  d_temperature : float;   (* random.uniform(-2, 2) *)
  d_humidity : float;      (* random.uniform(-5, 5) *)
  d_wind_speed : float;    (* random.uniform(-3, 3) *)
  d_air_quality : Z;       (* random.randint(-10, 10) *)
  d_water_level : float;   (* random.uniform(-0.5, 0.5) *)
  d_seismic : float;       (* random.uniform(0, 2) *)
  d_now : string           (* datetime.now().isoformat() *)
}.

Definition update_conditions (r : update_draws) : M DisasterEnvironment unit :=
  add_float temperature set_temperature (d_temperature r) ;;;
  add_float humidity set_humidity (d_humidity r) ;;;
  add_float wind_speed set_wind_speed (d_wind_speed r) ;;;
  set_conditions (fun c => set_air_quality (air_quality c + d_air_quality r) c) ;;;
  add_float water_level set_water_level (d_water_level r) ;;;
  set_conditions (set_seismic_activity (d_seismic r)) ;;;
  clamp_field temperature set_temperature (-10) 45 ;;;
  clamp_field humidity set_humidity 0 100 ;;;
  clamp_field wind_speed set_wind_speed 0 150 ;;;
  set_conditions (fun c => set_air_quality (Z.max 0 (Z.min 500 (air_quality c))) c) ;;;
  clamp_field water_level set_water_level 0 20 ;;;
  set_conditions (set_timestamp (d_now r)) ;;;
  modify (fun e => mkEnv (location e) (current_conditions e)
                         (active_disasters e) (event_history e) (event_counter e)
                         (conditions_history e ++ [current_conditions e])%list).

Definition _determine_earthquake_severity (magnitude : pynum) : SeverityLevel :=
  if py_lt magnitude (PFloat 4.5) then MINIMAL
  else if py_lt magnitude (PFloat 5.5) then LOW
  else if py_lt magnitude (PFloat 6.5) then MODERATE
  else if py_lt magnitude (PFloat 7.5) then HIGH
  else CRITICAL.

Definition _determine_flood_severity (water_level : pynum) : SeverityLevel :=
  if py_lt water_level (PInt 12) then MODERATE
  else if py_lt water_level (PInt 15) then HIGH
  else CRITICAL.

Definition _determine_fire_severity (temperature : pynum) : SeverityLevel :=
  if py_lt temperature (PInt 38) then LOW
  else if py_lt temperature (PInt 42) then MODERATE
  else HIGH.

Definition _determine_hurricane_severity (wind_speed : pynum) : SeverityLevel :=
  if py_lt wind_speed (PInt 130) then MODERATE
  else if py_lt wind_speed (PInt 140) then HIGH
  else CRITICAL.

Definition _generate_description (t : DisasterType) (s : SeverityLevel) : string :=
  severity_name s ++
  match t with
  | EARTHQUAKE => " earthquake detected with significant ground shaking"
  | FLOOD => " flooding detected with rising water levels"
  | FIRE => " wildfire detected with rapid spread"
  | HURRICANE => " hurricane detected with extreme winds"
  | TORNADO => " tornado detected with severe damage potential"
  | TSUNAMI => " tsunami warning with potential coastal impact"
  end.

(** What one call of [_create_disaster_event] draws. *)
Record event_draws : Type := mkEventDraws {
  dr_area : float;        (* random.uniform(10, 50) *)
  dr_casualties : Z;      (* random.randint(0, 100) *)
  dr_damage : float;      (* random.uniform(1_000_000, 100_000_000) *)
  dr_now : string
}.

(** What one call of [check_for_disasters] draws: the roll and the choices
    of the random rule, and the details of each event it may create. *)
Record check_draws : Type := mkCheckDraws {
  dr_earthquake : event_draws;
  dr_flood : event_draws;
  dr_fire : event_draws;
  dr_hurricane : event_draws;
  dr_roll : float;                (* random.random() *)
  dr_type : DisasterType;         (* random.choice(list(DisasterType)) *)
  dr_severity : SeverityLevel;    (* random.choice(list(SeverityLevel)) *)
  dr_random : event_draws
}.

Section Environment.

(** [round(x, 2)]. *)
Variable round2 : float -> float.

Definition _create_disaster_event (t : DisasterType) (s : SeverityLevel)
    (r : event_draws) : M DisasterEnvironment DisasterEvent :=
  modify (fun e => mkEnv (location e) (current_conditions e)
                         (active_disasters e) (event_history e)
                         (event_counter e + 1)%N (conditions_history e)) ;;;
  e <- get ;;
  let affected_area := PrimFloat.mul (float_of_Z (severity_value s)) (dr_area r) in
  let casualties := severity_value s * dr_casualties r in
  let damage_cost := PrimFloat.mul (float_of_Z (severity_value s)) (dr_damage r) in
  ret (mkEvent ("EVENT-" ++ format_0d 4 (event_counter e)) t s (location e)
               (dr_now r) (round2 affected_area) casualties (round2 damage_cost)
               (_generate_description t s)).

(** One threshold rule: [if cond: new_disasters.append(create(...))]. *)
Definition rule (cond : bool) (t : DisasterType) (s : SeverityLevel)
    (r : event_draws) (new_disasters : list DisasterEvent)
  : M DisasterEnvironment (list DisasterEvent) :=
  if cond then
    ev <- _create_disaster_event t s r ;;
    ret (new_disasters ++ [ev])%list
  else ret new_disasters.

Definition check_for_disasters (r : check_draws)
  : M DisasterEnvironment (list DisasterEvent) :=
  e <- get ;;
  let c := current_conditions e in
  n1 <- rule (py_gt (PFloat (seismic_activity c)) (PFloat 4.0)) EARTHQUAKE
             (_determine_earthquake_severity (PFloat (seismic_activity c)))
             (dr_earthquake r) [] ;;
  n2 <- rule (py_gt (water_level c) (PFloat 10.0)) FLOOD
             (_determine_flood_severity (water_level c)) (dr_flood r) n1 ;;
  n3 <- rule (py_gt (temperature c) (PInt 35) && py_lt (humidity c) (PInt 20)) FIRE
             (_determine_fire_severity (temperature c)) (dr_fire r) n2 ;;
  n4 <- rule (py_gt (wind_speed c) (PInt 120)) HURRICANE
             (_determine_hurricane_severity (wind_speed c)) (dr_hurricane r) n3 ;;
  n5 <- rule (PrimFloat.ltb (dr_roll r) 0.10) (dr_type r) (dr_severity r)
             (dr_random r) n4 ;;
  for_each n5 (fun ev =>
    modify (fun e => mkEnv (location e) (current_conditions e)
                           (active_disasters e ++ [ev])%list (event_history e ++ [ev])%list
                           (event_counter e) (conditions_history e))) ;;;
  ret n5.

(** [EnvironmentMonitorBehaviour.run]: one monitoring tick. *)
Definition monitor_run (u : update_draws) (r : check_draws)
  : M DisasterEnvironment (list DisasterEvent) :=
  update_conditions u ;;; check_for_disasters r.

(** A session: the ticks in order, stopping at the first exception. *)
Fixpoint monitor_session (ticks : list (update_draws * check_draws))
  : M DisasterEnvironment unit :=
  match ticks with
  | [] => ret tt
  | (u, r) :: rest => monitor_run u r ;;; monitor_session rest
  end.

End Environment.

(** [lo <= x <= hi], as Python orders numbers. *)
Definition in_range (lo hi : Z) (x : pynum) : bool :=
  py_le (PInt lo) x && py_le x (PInt hi).

(** The physical ranges of the clamped readings. *)
Definition within_ranges (c : EnvironmentalCondition) : bool :=
  in_range (-10) 45 (temperature c)
  && in_range 0 100 (humidity c)
  && in_range 0 150 (wind_speed c)
  && ((0 <=? air_quality c) && (air_quality c <=? 500))
  && in_range 0 20 (water_level c).

(** A clamped reading is a float or one of its two bounds. *)
Definition settled (lo hi : Z) (x : pynum) : Prop :=
  match x with
  | PFloat _ => True
  | PInt z => z = lo \/ z = hi
  end.

Definition settled_conditions (c : EnvironmentalCondition) : Prop :=
  settled (-10) 45 (temperature c) /\ settled 0 100 (humidity c)
  /\ settled 0 150 (wind_speed c) /\ settled 0 20 (water_level c).

(** [f"EVENT-{n:04d}"]. *)
Definition event_name (n : N) : string := "EVENT-" ++ format_0d 4 n.

(** The events of [l] carry the identifiers after [c], in order. *)
Fixpoint numbered (c : N) (l : list DisasterEvent) : Prop :=
  match l with
  | [] => True
  | ev :: rest => event_id ev = event_name (c + 1) /\ numbered (c + 1) rest
  end.

(** Two environments that differ in the event counter only. *)
Definition same_frame (e e' : DisasterEnvironment) : Prop :=
  location e' = location e /\ current_conditions e' = current_conditions e
  /\ active_disasters e' = active_disasters e /\ event_history e' = event_history e
  /\ conditions_history e' = conditions_history e.

(** What holds of the environment between two ticks. *)
Definition sound (e : DisasterEnvironment) : Prop :=
  settled_conditions (current_conditions e)
  /\ within_ranges (current_conditions e) = true
  /\ Forall (fun c => within_ranges c = true) (conditions_history e)
  /\ numbered 0 (event_history e)
  /\ event_counter e = N.of_nat (List.length (event_history e)).

End Lab2.

(* ------------------------------------------------------------------ *)
(** ** SPADE messages                                                  *)
(* ------------------------------------------------------------------ *)

Module Spade.

(** A [spade.message.Message]: addressee, sender, body (possibly absent)
    and string metadata. *)
Record Message : Type := mkMessage {
  to : string;
  sender : string;
  body : option string;
  metadata : list (string * string)
}.

(** [msg.get_metadata(k)]: the value or [None]. *)
Fixpoint get_metadata (k : string) (md : list (string * string)) : option string :=
  match md with
  | [] => None
  | (k', v) :: rest => if String.eqb k k' then Some v else get_metadata k rest
  end.

Fixpoint put_metadata (k v : string) (md : list (string * string))
  : list (string * string) :=
  match md with
  | [] => [(k, v)]
  | (k', v') :: rest =>
      if String.eqb k k' then (k, v) :: rest else (k', v') :: put_metadata k v rest
  end.

(** [msg.set_metadata(k, v)]: SPADE refuses a value that is not a [str]. *)
Definition set_metadata (k : string) (v : json) (m : Message) : outcome Message :=
  match v with
  | JStr s => Ret (mkMessage (to m) (sender m) (body m) (put_metadata k s (metadata m)))
  | _ => Raise TypeError
  end.

(** The truth value of [msg.body]: [None] and the empty string are false. *)
Definition body_truthy (b : option string) : bool :=
  match b with
  | None | Some EmptyString => false
  | Some _ => true
  end.

Definition opt_str (o : option string) : json :=
  match o with Some s => JStr s | None => JNull end.

End Spade.
Export Spade.

(* ------------------------------------------------------------------ *)
(** ** Lab 3: goals and the response state machine                     *)
(* ------------------------------------------------------------------ *)

Module Lab3.
Local Open Scope py_scope.

Inductive RescueGoal : Type :=
| ASSESS_SITUATION
| DEPLOY_RESOURCES
| EVACUATE_CIVILIANS
| PROVIDE_MEDICAL_AID
| RESTORE_INFRASTRUCTURE
| MONITOR_RECOVERY.

Record Goal : Type := mkGoal {
  goal_id : string;
  goal_type : RescueGoal;
  priority : Z;
  status : string;
  created_at : string;
  completed_at : option string
}.

Inductive state : Type :=
| STATE_IDLE
| STATE_ANALYZING
| STATE_PLANNING
| STATE_RESPONDING
| STATE_MONITORING
| STATE_COMPLETED.

Definition state_name (st : state) : string :=
  match st with
  | STATE_IDLE => "IDLE"
  | STATE_ANALYZING => "ANALYZING"
  | STATE_PLANNING => "PLANNING"
  | STATE_RESPONDING => "RESPONDING"
  | STATE_MONITORING => "MONITORING"
  | STATE_COMPLETED => "COMPLETED"
  end.

Definition is_idle (st : state) : bool :=
  match st with STATE_IDLE => true | _ => false end.

(** The records [IdleState.run] hands to the logger; the other states log
    at INFO level only and their records are left out. *)
Inductive log_level : Type := INFO | WARNING | ERROR.

Inductive log_message : Type :=
| WaitingForAlerts
| AlertReceived
| EventInfo (disaster_type severity_name : json)
| FailedToParse.

(** The agent's attributes set in [ResponseAgent.setup], with the number of
    clock readings taken so far and the log. [current_event] is [JNull] for
    [None]. *)
Record agent : Type := mkAgent {
  current_event : json;
  goals : list Goal;
  fsm_trace : list dict;
  clock_reads : nat;
  log : list (log_level * log_message)
}.

Definition setup : agent := mkAgent JNull [] [] 0 [].

Definition set_current_event (v : json) : M agent unit :=
  modify (fun a => mkAgent v (goals a) (fsm_trace a) (clock_reads a) (log a)).
Definition set_goals (f : list Goal -> list Goal) : M agent unit :=
  modify (fun a => mkAgent (current_event a) (f (goals a)) (fsm_trace a)
                           (clock_reads a) (log a)).
Definition trace_append (entry : dict) : M agent unit :=
  modify (fun a => mkAgent (current_event a) (goals a) (fsm_trace a ++ [entry])%list
                           (clock_reads a) (log a)).
Definition logger (lvl : log_level) (m : log_message) : M agent unit :=
  modify (fun a => mkAgent (current_event a) (goals a) (fsm_trace a)
                           (clock_reads a) (log a ++ [(lvl, m)])%list).

(** [l[i] = f(l[i])]. *)
Fixpoint update_nth {A} (i : nat) (f : A -> A) (l : list A) : list A :=
  match l, i with
  | [], _ => []
  | x :: rest, O => f x :: rest
  | x :: rest, S i' => x :: update_nth i' f rest
  end.

Definition set_status (v : string) (g : Goal) : Goal :=
  mkGoal (goal_id g) (goal_type g) (priority g) v (created_at g) (completed_at g).
Definition set_completed_at (v : string) (g : Goal) : Goal :=
  mkGoal (goal_id g) (goal_type g) (priority g) (status g) (created_at g) (Some v).

(** [f"GOAL-{n:03d}"]. *)
Definition goal_id_of (n : nat) : string := "GOAL-" ++ format_0d 3 (N.of_nat n).

(** [pending_goals.sort(key=lambda x: x.priority, reverse=True)] on goals
    paired with their position in [self.agent.goals]: the stable sort,
    highest priority first, written as an insertion sort. *)
Fixpoint insert_desc (x : nat * Goal) (l : list (nat * Goal)) : list (nat * Goal) :=
  match l with
  | [] => [x]
  | y :: rest =>
      if priority (snd x) <? priority (snd y) then y :: insert_desc x rest
      else x :: y :: rest
  end.

Fixpoint sort_desc (l : list (nat * Goal)) : list (nat * Goal) :=
  match l with
  | [] => []
  | x :: rest => insert_desc x (sort_desc rest)
  end.

(** [[g for g in self.agent.goals if g.status == "pending"]], each goal with
    its position (the list holds the objects themselves). *)
Definition pending_goals (gs : list Goal) : list (nat * Goal) :=
  filter (fun ig => String.eqb (status (snd ig)) "pending")
         (combine (seq 0 (List.length gs)) gs).

Section Machine.

(** [json.loads] and the readings of [datetime.now().isoformat()], in the
    order they are taken. *)
Variable json_loads : string -> outcome json.
Variable clock : nat -> string.

Definition now : M agent string :=
  fun a => (Ret (clock (clock_reads a)),
            mkAgent (current_event a) (goals a) (fsm_trace a)
                    (S (clock_reads a)) (log a)).

(** [json.loads(msg.body)]; a body that is [None] is a [TypeError]. *)
Definition loads_body (b : option string) : outcome json :=
  match b with
  | Some s => json_loads s
  | None => Raise TypeError
  end.

Definition IdleState_run (msg : option Message) : M agent state :=
  logger INFO WaitingForAlerts ;;;
  match msg with
  | Some m =>
      logger WARNING AlertReceived ;;;
      try_except
        (event_data <- lift (loads_body (body m)) ;;
         set_current_event event_data ;;;
         t <- now ;;
         event_id <- lift (py_get event_data "event_id" (JStr "UNKNOWN")) ;;
         trace_append [("state", JStr (state_name STATE_IDLE));
                       ("timestamp", JStr t);
                       ("action", JStr "Received disaster alert");
                       ("event_id", event_id)] ;;;
         disaster_type <- lift (py_get event_data "disaster_type" JNull) ;;
         severity_name <- lift (py_get event_data "severity_name" JNull) ;;
         logger INFO (EventInfo disaster_type severity_name) ;;;
         ret STATE_ANALYZING)
        JSONDecodeError
        (logger ERROR FailedToParse ;;;
         ret STATE_IDLE)
  | None => ret STATE_IDLE
  end.

Definition AnalyzingState_run : M agent state :=
  a <- get ;;
  let event := current_event a in
  severity <- lift (py_get event "severity" (JInt 1)) ;;
  disaster_type <- lift (py_get event "disaster_type" (JStr "Unknown")) ;;
  a <- get ;;
  t <- now ;;
  let goal := mkGoal (goal_id_of (List.length (goals a) + 1)) ASSESS_SITUATION 5
                     "active" t None in
  set_goals (fun gs => gs ++ [goal])%list ;;;
  let i := List.length (goals a) in
  set_goals (update_nth i (set_status "completed")) ;;;
  t <- now ;;
  set_goals (update_nth i (set_completed_at t)) ;;;
  t <- now ;;
  trace_append [("state", JStr (state_name STATE_ANALYZING));
                ("timestamp", JStr t);
                ("action", JStr "Completed situation assessment");
                ("severity", severity)] ;;;
  ret STATE_PLANNING.

(** The loop of [_generate_response_goals] that creates the goal objects. *)
Fixpoint create_goals (goal_counter : nat) (basic_goals : list (RescueGoal * Z))
  : M agent (list Goal) :=
  match basic_goals with
  | [] => ret []
  | (goal_type, priority) :: rest =>
      let goal_counter := S goal_counter in
      t <- now ;;
      let goal := mkGoal (goal_id_of goal_counter) goal_type priority "pending" t None in
      more <- create_goals goal_counter rest ;;
      ret (goal :: more)
  end.

Definition _generate_response_goals (severity : json) : M agent (list Goal) :=
  a <- get ;;
  let goal_counter := List.length (goals a) in
  let basic_goals := [(DEPLOY_RESOURCES, 5); (EVACUATE_CIVILIANS, 5)] in
  medical <- lift (py_ge_int severity 3) ;;
  let basic_goals :=
    if medical then (basic_goals ++ [(PROVIDE_MEDICAL_AID, 4)])%list else basic_goals in
  infrastructure <- lift (py_ge_int severity 4) ;;
  let basic_goals :=
    if infrastructure then (basic_goals ++ [(RESTORE_INFRASTRUCTURE, 3)])%list
    else basic_goals in
  let basic_goals := (basic_goals ++ [(MONITOR_RECOVERY, 2)])%list in
  create_goals goal_counter basic_goals.

Definition PlanningState_run : M agent state :=
  a <- get ;;
  severity <- lift (py_get (current_event a) "severity" (JInt 1)) ;;
  response_goals <- _generate_response_goals severity ;;
  for_each response_goals (fun goal => set_goals (fun gs => gs ++ [goal])%list) ;;;
  t <- now ;;
  trace_append [("state", JStr (state_name STATE_PLANNING));
                ("timestamp", JStr t);
                ("action", JStr "Response plan created");
                ("goals_count", JInt (Z.of_nat (List.length response_goals)))] ;;;
  ret STATE_RESPONDING.

(** One turn of the loop in [RespondingState.run]: the goal object at
    position [i] is completed. *)
Definition execute_goal (ig : nat * Goal) : M agent unit :=
  set_goals (update_nth (fst ig) (set_status "completed")) ;;;
  t <- now ;;
  set_goals (update_nth (fst ig) (set_completed_at t)).

Definition RespondingState_run : M agent state :=
  a <- get ;;
  let pending := sort_desc (pending_goals (goals a)) in
  for_each pending execute_goal ;;;
  t <- now ;;
  trace_append [("state", JStr (state_name STATE_RESPONDING));
                ("timestamp", JStr t);
                ("action", JStr "Response actions executed");
                ("goals_completed", JInt (Z.of_nat (List.length pending)))] ;;;
  ret STATE_MONITORING.

Definition count_completed (gs : list Goal) : nat :=
  List.length (filter (fun g => String.eqb (status g) "completed") gs).

(** [completed_goals/total_goals]: the value only goes to the log, the
    division by zero does not. *)
Definition success_rate_defined (total_goals : nat) : outcome unit :=
  match total_goals with
  | O => Raise ZeroDivisionError
  | S _ => Ret tt
  end.

Definition MonitoringState_run : M agent state :=
  a <- get ;;
  let total_goals := List.length (goals a) in
  let completed_goals := count_completed (goals a) in
  lift (success_rate_defined total_goals) ;;;
  t <- now ;;
  trace_append [("state", JStr (state_name STATE_MONITORING));
                ("timestamp", JStr t);
                ("action", JStr "Recovery monitoring completed");
                ("goals_completed", JInt (Z.of_nat completed_goals));
                ("total_goals", JInt (Z.of_nat total_goals))] ;;;
  ret STATE_COMPLETED.

Definition CompletedState_run : M agent state :=
  a <- get ;;
  let event := current_event a in
  lift (py_get event "event_id" JNull) ;;;
  t <- now ;;
  event_id <- lift (py_get event "event_id" JNull) ;;
  trace_append [("state", JStr (state_name STATE_COMPLETED));
                ("timestamp", JStr t);
                ("action", JStr "Response cycle completed");
                ("event_id", event_id)] ;;;
  set_current_event JNull ;;;
  ret STATE_IDLE.

(** One visit of the machine to [st]: the state's [run], which names the
    next state.  Every pair (state, next state) the runs produce is a
    transition registered in [setup].  An exception ends the behaviour. *)
Definition fsm_step (st : state) (msg : option Message) : M agent state :=
  match st with
  | STATE_IDLE => IdleState_run msg
  | STATE_ANALYZING => AnalyzingState_run
  | STATE_PLANNING => PlanningState_run
  | STATE_RESPONDING => RespondingState_run
  | STATE_MONITORING => MonitoringState_run
  | STATE_COMPLETED => CompletedState_run
  end.

(** [fuel] visits; each visit to IDLE takes what [receive] returns next
    ([None] for a timeout, also once [inbox] is used up). *)
Fixpoint fsm_run (fuel : nat) (inbox : list (option Message)) (st : state)
  : M agent state :=
  match fuel with
  | O => ret st
  | S n =>
      match st, inbox with
      | STATE_IDLE, m :: rest => st' <- fsm_step STATE_IDLE m ;; fsm_run n rest st'
      | STATE_IDLE, [] => st' <- fsm_step STATE_IDLE None ;; fsm_run n [] st'
      | _, _ => st' <- fsm_step st None ;; fsm_run n inbox st'
      end
  end.

(** The configurations the machine can be in: it starts in IDLE after
    [setup] and moves by visits that return. *)
Inductive reachable : state -> agent -> Prop :=
| reach_setup : reachable STATE_IDLE setup
| reach_step st a msg st' a' :
    reachable st a ->
    fsm_step st msg a = (Ret st', a') ->
    reachable st' a'.

(** The goals [create_goals] makes, the clock being read from [t] on. *)
Fixpoint created (t counter : nat) (l : list (RescueGoal * Z)) : list Goal :=
  match l with
  | [] => []
  | (ty, p) :: rest =>
      mkGoal (goal_id_of (S counter)) ty p "pending" (clock t) None
      :: created (S t) (S counter) rest
  end.

(** The goals after the loop of [RespondingState.run] over [l], the clock
    being read from [t] on. *)
Fixpoint executed (t : nat) (l : list (nat * Goal)) (gs : list Goal) : list Goal :=
  match l with
  | [] => gs
  | ig :: rest =>
      executed (S t) rest
        (update_nth (fst ig) (set_completed_at (clock t))
           (update_nth (fst ig) (set_status "completed") gs))
  end.

End Machine.

Definition with_goals (gs : list Goal) (a : agent) : agent :=
  mkAgent (current_event a) gs (fsm_trace a) (clock_reads a) (log a).
Definition tick (k : nat) (a : agent) : agent :=
  mkAgent (current_event a) (goals a) (fsm_trace a) (k + clock_reads a) (log a).

(** [x] is executed before [y]: higher priority first, and among equal
    priorities the earlier position first. *)
Definition runs_before (x y : nat * Goal) : Prop :=
  priority (snd y) < priority (snd x)
  \/ (priority (snd x) = priority (snd y) /\ (fst x < fst y)%nat).

(** The transitions registered in [setup], the self-loop of IDLE apart. *)
Definition next_state (st : state) : state :=
  match st with
  | STATE_IDLE => STATE_ANALYZING
  | STATE_ANALYZING => STATE_PLANNING
  | STATE_PLANNING => STATE_RESPONDING
  | STATE_RESPONDING => STATE_MONITORING
  | STATE_MONITORING => STATE_COMPLETED
  | STATE_COMPLETED => STATE_IDLE
  end.

(** What a visit to [st] that hands over leaves behind: one more trace
    entry, which starts with the state, a timestamp and the action, and no
    goal removed. *)
Definition visit_recorded (st : state) (a a' : agent) : Prop :=
  exists ts action counters,
    fsm_trace a' = (fsm_trace a
                    ++ [("state", JStr (state_name st)) :: ("timestamp", JStr ts)
                        :: ("action", JStr action) :: counters])%list
    /\ (List.length (goals a) <= List.length (goals a'))%nat.

Definition is_dict (v : json) : bool :=
  match v with JObj _ => true | _ => false end.

(** The severity ANALYZING and PLANNING read from the event. *)
Definition event_severity (d : dict) : json :=
  match dict_get "severity" d with Some v => v | None => JInt 1 end.

Definition cycle : list state :=
  [STATE_IDLE; STATE_ANALYZING; STATE_PLANNING; STATE_RESPONDING;
   STATE_MONITORING; STATE_COMPLETED].

Definition tags (sts : list state) : list (option json) :=
  map (fun st => Some (JStr (state_name st))) sts.

(** The state tags of trace entries. *)
Definition entry_state (entry : dict) : option json := dict_get "state" entry.

(** What the claim about PLANNING lists for a severity. *)
Definition planned (severity : Z) : list (RescueGoal * Z * string) :=
  [(DEPLOY_RESOURCES, 5, "pending"); (EVACUATE_CIVILIANS, 5, "pending")]
  ++ (if 3 <=? severity then [(PROVIDE_MEDICAL_AID, 4, "pending")] else [])
  ++ (if 4 <=? severity then [(RESTORE_INFRASTRUCTURE, 3, "pending")] else [])
  ++ [(MONITOR_RECOVERY, 2, "pending")].

Definition goal_summary (g : Goal) : RescueGoal * Z * string :=
  (goal_type g, priority g, status g).

End Lab3.

(* ------------------------------------------------------------------ *)
(** ** Lab 4: the request/response protocol                            *)
(* ------------------------------------------------------------------ *)

Module Lab4.
Local Open Scope py_scope.

(** [FIPAPerformative.<X>.value] and [MessageType.<X>.value] as used. *)
Definition INFORM : string := "inform".
Definition REQUEST : string := "request".
Definition DISASTER_ALERT : string := "disaster_alert".
Definition RESOURCE_REQUEST : string := "resource_request".
Definition RESOURCE_RESPONSE : string := "resource_response".

Record ACLMessageLog : Type := mkLog {
  timestamp : string;
  log_sender : string;
  receiver : string;
  performative : option string;
  message_type : option string;
  content : json;
  conversation_id : json
}.

Definition opt_eqb (o : option string) (s : string) : bool :=
  match o with
  | Some x => String.eqb x s
  | None => false
  end.

(** The three counters of a responder's [available_resources]. *)
Record resources : Type := mkResources {
  rescue_teams : pynum;
  medical_units : pynum;
  equipment : pynum
}.

(** An agent of the protocol: its JID and name, its message log, what it
    has sent, and the clock readings taken so far.  The coordinator has
    [rescue_agents], a responder has [available_resources]. *)
Record agent : Type := mkAgent {
  jid : string;
  name : string;
  message_log : list ACLMessageLog;
  rescue_agents : list string;
  available_resources : resources;
  sent : list Message;
  clock_reads : nat
}.

Definition log_append (entry : ACLMessageLog) : M agent unit :=
  modify (fun a => mkAgent (jid a) (name a) (message_log a ++ [entry])%list
                           (rescue_agents a) (available_resources a) (sent a)
                           (clock_reads a)).

Definition set_resources (f : resources -> resources) : M agent unit :=
  modify (fun a => mkAgent (jid a) (name a) (message_log a) (rescue_agents a)
                           (f (available_resources a)) (sent a) (clock_reads a)).

(** [await self.send(msg)]: the transport stamps the sender. *)
Definition send (m : Message) : M agent unit :=
  modify (fun a => mkAgent (jid a) (name a) (message_log a) (rescue_agents a)
                           (available_resources a)
                           (sent a ++ [mkMessage (to m) (jid a) (body m) (metadata m)])%list
                           (clock_reads a)).

Definition with_body (b : string) (m : Message) : Message :=
  mkMessage (to m) (sender m) (Some b) (metadata m).

(** [self.agent.available_resources[key] -= amount]. *)
Definition take (field : resources -> pynum)
    (set : pynum -> resources -> resources) (amount : json) : M agent unit :=
  a <- get ;;
  match as_num amount with
  | Some n =>
      v <- lift (py_sub (field (available_resources a)) n) ;;
      set_resources (set v)
  | None => raise TypeError
  end.

Definition set_rescue_teams (v : pynum) (r : resources) :=
  mkResources v (medical_units r) (equipment r).
Definition set_medical_units (v : pynum) (r : resources) :=
  mkResources (rescue_teams r) v (equipment r).
Definition set_equipment (v : pynum) (r : resources) :=
  mkResources (rescue_teams r) (medical_units r) v.

(** What [SensorAgent._generate_disaster] draws. *)
Record disaster_draws : Type := mkDisasterDraws {
  dd_type : string;           (* random.choice(disaster_types) *)
  dd_severity : Z * string;   (* random.choice(severity_levels) *)
  dd_id : Z;                  (* random.randint(1000, 9999) *)
  dd_now : string
}.

Definition disaster_types : list string :=
  ["Earthquake"; "Flood"; "Fire"; "Hurricane"].
Definition severity_levels : list (Z * string) :=
  [(1, "MINIMAL"); (2, "LOW"); (3, "MODERATE"); (4, "HIGH"); (5, "CRITICAL")].

Definition _generate_disaster (r : disaster_draws) : dict :=
  [("event_id", JStr ("EVENT-" ++ str_of_Z (dd_id r)));
   ("disaster_type", JStr (dd_type r));
   ("severity", JInt (fst (dd_severity r)));
   ("severity_name", JStr (snd (dd_severity r)));
   ("location", JStr "Disaster Zone Alpha");
   ("timestamp", JStr (dd_now r))].

Section Protocol.

Variable json_loads : string -> outcome json.
Variable json_dumps : json -> outcome string.
Variable clock : nat -> string.

Definition now : M agent string :=
  fun a => (Ret (clock (clock_reads a)),
            mkAgent (jid a) (name a) (message_log a) (rescue_agents a)
                    (available_resources a) (sent a) (S (clock_reads a))).

Definition loads_body (b : option string) : outcome json :=
  match b with
  | Some s => json_loads s
  | None => Raise TypeError
  end.

(** The log entry every receiving behaviour writes first. *)
Definition log_received (m : Message) : M agent unit :=
  a <- get ;;
  t <- now ;;
  content <- (if body_truthy (body m) then lift (loads_body (body m))
              else ret (JObj [])) ;;
  log_append (mkLog t (sender m) (jid a)
                    (get_metadata "performative" (metadata m))
                    (get_metadata "message_type" (metadata m))
                    content
                    (opt_str (get_metadata "conversation-id" (metadata m)))).

(** *** Coordinator *)

Definition request_message (rescue_agent : string) (disaster_data severity : json)
    (resources_needed : dict) : M agent Message :=
  let msg := mkMessage rescue_agent "" None [] in
  msg <- lift (set_metadata "performative" (JStr REQUEST) msg) ;;
  msg <- lift (set_metadata "message_type" (JStr RESOURCE_REQUEST) msg) ;;
  event_id <- lift (py_get disaster_data "event_id" JNull) ;;
  msg <- lift (set_metadata "conversation-id" event_id msg) ;;
  event_id <- lift (py_get disaster_data "event_id" JNull) ;;
  disaster_type <- lift (py_get disaster_data "disaster_type" JNull) ;;
  b <- lift (json_dumps (JObj [("event_id", event_id);
                               ("disaster_type", disaster_type);
                               ("severity", severity);
                               ("resources_requested", JObj resources_needed)])) ;;
  ret (with_body b msg).

(** One turn of the loop in [_request_rescue_resources]: the request to
    [rescue_agent] is built, sent and logged. *)
Definition request_turn (disaster_data severity : json) (resources_needed : dict)
    (rescue_agent : string) : M agent unit :=
  msg <- request_message rescue_agent disaster_data severity resources_needed ;;
  send msg ;;;
  a <- get ;;
  t <- now ;;
  content <- lift (loads_body (body msg)) ;;
  event_id <- lift (py_get disaster_data "event_id" JNull) ;;
  log_append (mkLog t (jid a) rescue_agent (Some REQUEST) (Some RESOURCE_REQUEST)
                    content event_id).

Definition _request_rescue_resources (disaster_data : json) : M agent unit :=
  severity <- lift (py_get disaster_data "severity" (JInt 1)) ;;
  teams <- lift (py_mul_int severity 2) ;;
  units <- lift (py_mul_int severity 1) ;;
  equip <- lift (py_mul_int severity 3) ;;
  let resources_needed :=
    [("rescue_teams", teams); ("medical_units", units); ("equipment", equip)] in
  a <- get ;;
  for_each (rescue_agents a) (request_turn disaster_data severity resources_needed).

Definition _handle_disaster_alert (m : Message) : M agent unit :=
  disaster_data <- lift (loads_body (body m)) ;;
  lift (py_get disaster_data "event_id" JNull) ;;;
  _request_rescue_resources disaster_data.

Definition ReceiveAlertBehaviour_run (msg : option Message) : M agent unit :=
  match msg with
  | Some m =>
      log_received m ;;;
      if opt_eqb (get_metadata "performative" (metadata m)) INFORM
         && opt_eqb (get_metadata "message_type" (metadata m)) DISASTER_ALERT
      then _handle_disaster_alert m
      else ret tt
  | None => ret tt
  end.

Definition ReceiveResponseBehaviour_run (msg : option Message) : M agent unit :=
  match msg with
  | Some m =>
      log_received m ;;;
      if opt_eqb (get_metadata "performative" (metadata m)) INFORM
         && opt_eqb (get_metadata "message_type" (metadata m)) RESOURCE_RESPONSE
      then
        response_data <- lift (loads_body (body m)) ;;
        lift (py_get response_data "status" JNull) ;;;
        ret tt
      else ret tt
  | None => ret tt
  end.

(** *** Responder *)

Definition _handle_resource_request (m : Message) : M agent unit :=
  request_data <- lift (loads_body (body m)) ;;
  lift (py_get request_data "event_id" JNull) ;;;
  requested <- lift (py_get request_data "resources_requested" (JObj [])) ;;
  a <- get ;;
  let held := available_resources a in
  wanted <- lift (py_get requested "rescue_teams" (JInt 0)) ;;
  teams <- lift (py_min_with wanted (rescue_teams held)) ;;
  wanted <- lift (py_get requested "medical_units" (JInt 0)) ;;
  units <- lift (py_min_with wanted (medical_units held)) ;;
  wanted <- lift (py_get requested "equipment" (JInt 0)) ;;
  equip <- lift (py_min_with wanted (equipment held)) ;;
  let available :=
    [("rescue_teams", teams); ("medical_units", units); ("equipment", equip)] in
  take rescue_teams set_rescue_teams teams ;;;
  take medical_units set_medical_units units ;;;
  take equipment set_equipment equip ;;;
  let response := mkMessage (sender m) "" None [] in
  response <- lift (set_metadata "performative" (JStr INFORM) response) ;;
  response <- lift (set_metadata "message_type" (JStr RESOURCE_RESPONSE) response) ;;
  event_id <- lift (py_get request_data "event_id" JNull) ;;
  response <- lift (set_metadata "conversation-id" event_id response) ;;
  a <- get ;;
  b <- lift (json_dumps (JObj [("event_id", event_id);
                               ("agent_id", JStr (name a));
                               ("status", JStr "resources_allocated");
                               ("resources_available", JObj available)])) ;;
  let response := with_body b response in
  send response ;;;
  t <- now ;;
  content <- lift (loads_body (body response)) ;;
  log_append (mkLog t (jid a) (sender m) (Some INFORM) (Some RESOURCE_RESPONSE)
                    content event_id).

Definition ReceiveRequestBehaviour_run (msg : option Message) : M agent unit :=
  match msg with
  | Some m =>
      log_received m ;;;
      if opt_eqb (get_metadata "performative" (metadata m)) REQUEST
         && opt_eqb (get_metadata "message_type" (metadata m)) RESOURCE_REQUEST
      then _handle_resource_request m
      else ret tt
  | None => ret tt
  end.

(** *** Sensor *)

Definition DetectDisasterBehaviour_run (r : disaster_draws) : M agent unit :=
  let disaster := JObj (_generate_disaster r) in
  event_id <- lift (py_get disaster "event_id" JNull) ;;
  let msg := mkMessage "command@localhost" "" None [] in
  msg <- lift (set_metadata "performative" (JStr INFORM) msg) ;;
  msg <- lift (set_metadata "message_type" (JStr DISASTER_ALERT) msg) ;;
  msg <- lift (set_metadata "conversation-id" event_id msg) ;;
  b <- lift (json_dumps disaster) ;;
  send (with_body b msg) ;;;
  a <- get ;;
  t <- now ;;
  log_append (mkLog t (jid a) "command@localhost" (Some INFORM) (Some DISASTER_ALERT)
                    disaster event_id).

(** The agent once [log_received] has entered [m], decoded as [v]. *)
Definition after_receipt (m : Message) (v : json) (a : agent) : agent :=
  mkAgent (jid a) (name a)
          (message_log a
           ++ [mkLog (clock (clock_reads a)) (sender m) (jid a)
                     (get_metadata "performative" (metadata m))
                     (get_metadata "message_type" (metadata m)) v
                     (opt_str (get_metadata "conversation-id" (metadata m)))])%list
          (rescue_agents a) (available_resources a) (sent a) (S (clock_reads a)).

(** The log entries of the request loop, the clock being read from [t] on. *)
Fixpoint request_logs (t : nat) (me : string) (c eid : json) (l : list string)
  : list ACLMessageLog :=
  match l with
  | [] => []
  | r :: rest =>
      mkLog (clock t) me r (Some REQUEST) (Some RESOURCE_REQUEST) c eid
      :: request_logs (S t) me c eid rest
  end.

End Protocol.

(** The granted amounts a response body carries. *)
Definition granted (key : string) (response : json) : option json :=
  match response with
  | JObj d =>
      match dict_get "resources_available" d with
      | Some (JObj av) => dict_get key av
      | _ => None
      end
  | _ => None
  end.

(** The metadata of a request and of a response in the conversation
    [event_id]. *)
Definition request_metadata (event_id : string) : list (string * string) :=
  [("performative", REQUEST); ("message_type", RESOURCE_REQUEST);
   ("conversation-id", event_id)].
Definition response_metadata (event_id : string) : list (string * string) :=
  [("performative", INFORM); ("message_type", RESOURCE_RESPONSE);
   ("conversation-id", event_id)].

(** The dict of three amounts. *)
Definition resources_dict (teams units equip : Z) : json :=
  JObj [("rescue_teams", JInt teams); ("medical_units", JInt units);
        ("equipment", JInt equip)].

(** [CommandCenterAgent.setup] and [RescueAgent.setup]; the responder's
    counters are drawn with [random.randint]. *)
Definition command_center_setup (jid : string) : agent :=
  mkAgent jid "command" [] ["rescue1@localhost"; "rescue2@localhost"]
          (mkResources (PInt 0) (PInt 0) (PInt 0)) [] 0.

Definition rescue_setup (jid name : string) (teams units equip : Z) : agent :=
  mkAgent jid name [] [] (mkResources (PInt teams) (PInt units) (PInt equip)) [] 0.

End Lab4.

(* ------------------------------------------------------------------ *)
(** ** Sample inputs                                                   *)
(* ------------------------------------------------------------------ *)

Module Samples.

(** A clock whose n-th reading is the text of [n]. *)
Definition sample_clock (n : nat) : string := "T" ++ decimal (N.of_nat n).

Definition text_of (v : json) : string :=
  match Json.dumps v with Some s => s | None => EmptyString end.

(** An alert of severity 3 as the sensors write it. *)
Definition sample_event : dict :=
  [("event_id", JStr "EVENT-0001");
   ("disaster_type", JStr "Flood");
   ("severity", JInt 3);
   ("severity_name", JStr "MODERATE");
   ("location", JStr "Disaster Zone Alpha");
   ("timestamp", JStr "2026-01-29T10:00:00")].

Definition sample_alert : Message :=
  mkMessage "response@localhost" "sensor@localhost"
            (Some (text_of (JObj sample_event))) [("performative", "inform")].

(** Bodies that are not events: JSON that is not an object, and text that
    is not JSON. *)
Definition list_alert : Message :=
  mkMessage "response@localhost" "sensor@localhost" (Some "[]")
            [("performative", "inform")].

Definition garbled_alert : Message :=
  mkMessage "response@localhost" "sensor@localhost" (Some "flood at zone alpha")
            [("performative", "inform")].

(** An agent about to plan for an event of severity 5. *)
Definition critical_event : dict :=
  [("event_id", JStr "EVENT-0002"); ("disaster_type", JStr "Earthquake");
   ("severity", JInt 5); ("severity_name", JStr "CRITICAL")].

Definition planning_agent : Lab3.agent :=
  Lab3.mkAgent (JObj critical_event)
               [Lab3.mkGoal "GOAL-001" Lab3.ASSESS_SITUATION 5 "completed" "T0" (Some "T1")]
               [] 3 [].

(** A request for 8 teams, 3 units and 9 pieces of equipment, and a
    responder that holds 5, 5 and 7. *)
Definition sample_request : dict :=
  [("event_id", JStr "EVENT-1234");
   ("disaster_type", JStr "Flood");
   ("severity", JInt 4);
   ("resources_requested", Lab4.resources_dict 8 3 9)].

Definition sample_request_message : Message :=
  mkMessage "rescue1@localhost" "command@localhost"
            (Some (text_of (JObj sample_request)))
            (Lab4.request_metadata "EVENT-1234").

Definition sample_responder : Lab4.agent :=
  Lab4.rescue_setup "rescue1@localhost" "rescue1" 5 5 7.

(** Two draws of the protocol's sensor with the same random integer, and
    two with a falling one. *)
Definition draw_a : Lab4.disaster_draws :=
  Lab4.mkDisasterDraws "Flood" (3, "MODERATE") 1234 "2026-01-29T10:00:00".
Definition draw_b : Lab4.disaster_draws :=
  Lab4.mkDisasterDraws "Fire" (5, "CRITICAL") 1234 "2026-01-29T10:00:02".
Definition draw_c : Lab4.disaster_draws :=
  Lab4.mkDisasterDraws "Fire" (5, "CRITICAL") 1000 "2026-01-29T10:00:04".

(** The protocol's sensor and the alert it sends for [draw_a]. *)
Definition sample_sensor : Lab4.agent :=
  Lab4.mkAgent "sensor@localhost" "sensor" [] []
               (Lab4.mkResources (PInt 0) (PInt 0) (PInt 0)) [] 0.

Definition sensor_alert : Message :=
  nth 0 (Lab4.sent (snd (Lab4.DetectDisasterBehaviour_run
                           Json.dumps_plain sample_clock draw_a sample_sensor)))
        (mkMessage "" "" None []).

(** The agent when the machine reaches MONITORING for [sample_alert]. *)
Definition monitoring_agent : Lab3.agent :=
  snd (Lab3.fsm_run Json.loads sample_clock 4 [Some sample_alert]
                    Lab3.STATE_IDLE Lab3.setup).

End Samples.

(* ================================================================== *)
(** * Part II. Properties                                              *)
(* ================================================================== *)

Local Open Scope list_scope.
Local Open Scope Z_scope.

(** ** Ordering of Python numbers *)

Section PyFacts.

Lemma ltb_leb (x y : float) : PrimFloat.ltb x y = true -> PrimFloat.leb x y = true.
Proof.
  rewrite ltb_spec, leb_spec. unfold SFltb, SFleb.
  destruct (SFcompare _ _) as [[]|]; congruence.
Qed.

Lemma py_lt_le a b : py_lt a b = true -> py_le a b = true.
Proof.
  destruct a, b; simpl.
  - intros H. apply Z.ltb_lt in H. apply Z.leb_le. lia.
  - destruct (SF_cmp_Z _ _) as [[]|]; simpl; congruence.
  - destruct (SF_cmp_Z _ _) as [[]|]; simpl; congruence.
  - apply ltb_leb.
Qed.

(** Swapping the operands of [SFcompare] swaps the verdict. *)
Lemma SFcompare_swap x y :
  SFcompare y x = match SFcompare x y with Some c => Some (CompOpp c) | None => None end.
Proof.
  destruct x as [sx|sx| |sx mx ex], y as [sy|sy| |sy my ey]; simpl;
    try reflexivity; try (destruct sx; reflexivity); try (destruct sy; reflexivity);
    try (destruct sx, sy; reflexivity).
  rewrite (Z.compare_antisym ex ey).
  change (PosDef.Pos.compare_cont Eq my mx) with (Pos.compare my mx).
  change (PosDef.Pos.compare_cont Eq mx my) with (Pos.compare mx my).
  rewrite (Pos.compare_antisym mx my).
  destruct sx, sy; simpl; try reflexivity;
    destruct (ex ?= ey); simpl; try reflexivity;
    destruct (mx ?= my)%positive; reflexivity.
Qed.

Lemma py_le_not_lt a b : py_le a b = true -> py_lt b a = false.
Proof.
  destruct a, b; simpl.
  - intros H. apply Z.leb_le in H. apply Z.ltb_ge. lia.
  - destruct (SF_cmp_Z _ _) as [[]|]; simpl; congruence.
  - destruct (SF_cmp_Z _ _) as [[]|]; simpl; congruence.
  - rewrite ltb_spec, leb_spec. unfold SFltb, SFleb.
    rewrite (SFcompare_swap (Prim2SF f) (Prim2SF f0)).
    destruct (SFcompare _ _) as [[]|]; simpl; congruence.
Qed.

(** Two positive doubles with the same exponent: being below the one with
    the smaller mantissa is being below the other. *)
Lemma SFltb_mono x ma mb e :
  (ma <= mb)%positive ->
  SFltb x (S754_finite false ma e) = true -> SFltb x (S754_finite false mb e) = true.
Proof.
  intros Hm. unfold SFltb.
  destruct x as [s|s| |s m ex]; simpl; try congruence.
  destruct s; try congruence.
  destruct (ex ?= e); try congruence.
  change (PosDef.Pos.compare_cont Eq m ma) with (Pos.compare m ma).
  change (PosDef.Pos.compare_cont Eq m mb) with (Pos.compare m mb).
  destruct (m ?= ma)%positive eqn:E; try congruence.
  intros _. change (m < ma)%positive in E.
  assert (m < mb)%positive as H by lia.
  unfold Pos.lt in H. rewrite H. reflexivity.
Qed.

Lemma SF_cmp_Z_mono z ma mb e :
  (ma <= mb)%positive -> e < 0 ->
  is_Gt (SF_cmp_Z (S754_finite false ma e) z) = true ->
  is_Gt (SF_cmp_Z (S754_finite false mb e) z) = true.
Proof.
  intros Hm He. unfold SF_cmp_Z.
  destruct (0 <=? e) eqn:E; [apply Z.leb_le in E; lia|].
  cbn [is_Gt]. destruct (Z.pos ma ?= z * 2 ^ (- e)) eqn:C; try congruence. intros _.
  apply Z.compare_gt_iff in C.
  assert (z * 2 ^ (- e) < Z.pos mb)%Z as H by lia.
  apply Z.compare_gt_iff in H. rewrite H. reflexivity.
Qed.

Lemma py_lt_threshold_mono m (a b : float) ma mb e :
  Prim2SF a = S754_finite false ma e -> Prim2SF b = S754_finite false mb e ->
  (ma <= mb)%positive -> e < 0 ->
  py_lt m (PFloat a) = true -> py_lt m (PFloat b) = true.
Proof.
  intros Ha Hb Hm He. destruct m as [z|f]; simpl.
  - rewrite Ha, Hb. now apply SF_cmp_Z_mono.
  - rewrite !ltb_spec, Ha, Hb. now apply SFltb_mono.
Qed.

Lemma not_lt_below m a b :
  (py_lt m a = true -> py_lt m b = true) -> py_lt m b = false -> py_lt m a = false.
Proof. destruct (py_lt m a); intuition congruence. Qed.

(** [min] on integers, as Python computes it. *)
Lemma py_min_with_int (r h : Z) :
  py_min_with (JInt r) (PInt h) = Ret (JInt (Z.min r h)).
Proof.
  unfold py_min_with. simpl. destruct (h <? r) eqn:E.
  - apply Z.ltb_lt in E. now rewrite Z.min_r by lia.
  - apply Z.ltb_ge in E. now rewrite Z.min_l by lia.
Qed.

(** *** Formatting is injective *)

Lemma parse_zeros k s : parse_decimal (zeros k ++ s) = parse_decimal s.
Proof.
  unfold parse_decimal. induction k as [|k IH]; simpl; [reflexivity|].
  revert IH. destruct (NilEmpty.uint_of_string (zeros k ++ s)) as [d|];
    destruct (NilEmpty.uint_of_string s) as [d'|]; simpl; congruence.
Qed.

Lemma parse_format_0d w n : parse_decimal (format_0d w n) = Some n.
Proof.
  unfold format_0d. rewrite parse_zeros. unfold parse_decimal, decimal.
  rewrite NilEmpty.usu. simpl. now rewrite DecimalN.Unsigned.of_to.
Qed.

Lemma format_0d_inj w n m : format_0d w n = format_0d w m -> n = m.
Proof.
  intros H. pose proof (parse_format_0d w n) as Hn.
  rewrite H, parse_format_0d in Hn. congruence.
Qed.

Lemma append_inj_l (p s t : string) : (p ++ s = p ++ t)%string -> s = t.
Proof. induction p; simpl; [auto | intros H; injection H; auto]. Qed.

End PyFacts.

(** ** Lab 2 *)

Section Lab2Facts.
Import Lab2.

Lemma lt_45_55 m : py_lt m (PFloat 4.5) = true -> py_lt m (PFloat 5.5) = true.
Proof.
  eapply py_lt_threshold_mono;
    [vm_compute; reflexivity | vm_compute; reflexivity | lia | lia].
Qed.

Lemma lt_55_65 m : py_lt m (PFloat 5.5) = true -> py_lt m (PFloat 6.5) = true.
Proof.
  eapply py_lt_threshold_mono;
    [vm_compute; reflexivity | vm_compute; reflexivity | lia | lia].
Qed.

Lemma lt_65_75 m : py_lt m (PFloat 6.5) = true -> py_lt m (PFloat 7.5) = true.
Proof.
  eapply py_lt_threshold_mono;
    [vm_compute; reflexivity | vm_compute; reflexivity | lia | lia].
Qed.

(** C9. Earthquake severity is a function of the magnitude alone, by
    half-open bands: below 4.5 MINIMAL, from 4.5 and below 5.5 LOW, from 5.5
    and below 6.5 MODERATE, from 6.5 and below 7.5 HIGH, from 7.5 on
    CRITICAL; each boundary belongs to the upper band.  The magnitude is any
    Python number, compared as Python compares it. *)
Theorem earthquake_severity_bands :
  (forall m : pynum,
      (py_lt m (PFloat 4.5) = true -> _determine_earthquake_severity m = MINIMAL)
      /\ (py_ge m (PFloat 4.5) = true -> py_lt m (PFloat 5.5) = true ->
          _determine_earthquake_severity m = LOW)
      /\ (py_ge m (PFloat 5.5) = true -> py_lt m (PFloat 6.5) = true ->
          _determine_earthquake_severity m = MODERATE)
      /\ (py_ge m (PFloat 6.5) = true -> py_lt m (PFloat 7.5) = true ->
          _determine_earthquake_severity m = HIGH)
      /\ (py_ge m (PFloat 7.5) = true -> _determine_earthquake_severity m = CRITICAL))
  /\ _determine_earthquake_severity (PFloat 4.4) = MINIMAL
  /\ _determine_earthquake_severity (PFloat 4.5) = LOW
  /\ _determine_earthquake_severity (PFloat 5.4) = LOW
  /\ _determine_earthquake_severity (PFloat 5.5) = MODERATE
  /\ _determine_earthquake_severity (PFloat 6.4) = MODERATE
  /\ _determine_earthquake_severity (PFloat 6.5) = HIGH
  /\ _determine_earthquake_severity (PFloat 7.4) = HIGH
  /\ _determine_earthquake_severity (PFloat 7.5) = CRITICAL
  /\ _determine_earthquake_severity (PFloat 8.0) = CRITICAL.
Proof.
  split; [|repeat split; vm_compute; reflexivity].
  intros m. unfold _determine_earthquake_severity, py_ge.
  repeat split.
  - intros ->. reflexivity.
  - intros Hge ->. apply py_le_not_lt in Hge. rewrite Hge. reflexivity.
  - intros Hge ->. apply py_le_not_lt in Hge.
    rewrite (not_lt_below _ _ _ (lt_45_55 m) Hge), Hge. reflexivity.
  - intros Hge ->. apply py_le_not_lt in Hge.
    pose proof (not_lt_below _ _ _ (lt_55_65 m) Hge) as H55.
    rewrite (not_lt_below _ _ _ (lt_45_55 m) H55), H55, Hge. reflexivity.
  - intros Hge. apply py_le_not_lt in Hge.
    pose proof (not_lt_below _ _ _ (lt_65_75 m) Hge) as H65.
    pose proof (not_lt_below _ _ _ (lt_55_65 m) H65) as H55.
    rewrite (not_lt_below _ _ _ (lt_45_55 m) H55), H55, H65, Hge. reflexivity.
Qed.

(** *** Clamping *)

Lemma clamp_in_range lo hi x : lo <= hi -> in_range lo hi (clamp lo hi x) = true.
Proof.
  intros Hlh. unfold clamp, py_max, py_min, py_gt, in_range.
  destruct (py_lt x (PInt hi)) eqn:E1.
  - destruct (py_lt (PInt lo) x) eqn:E2.
    + rewrite (py_lt_le _ _ E1), (py_lt_le _ _ E2). reflexivity.
    + simpl. rewrite !(proj2 (Z.leb_le _ _)) by lia. reflexivity.
  - destruct (py_lt (PInt lo) (PInt hi)) eqn:E2;
      simpl in *; rewrite !(proj2 (Z.leb_le _ _)) by lia; reflexivity.
Qed.

Lemma clamp_settled lo hi f : settled lo hi (clamp lo hi (PFloat f)).
Proof.
  unfold clamp, py_max, py_min, py_gt.
  destruct (py_lt (PFloat f) (PInt hi));
    match goal with |- context [if ?b then _ else _] => destruct b end;
    simpl; auto.
Qed.

(** The bounds are small integers, so adding a float to a settled reading
    never overflows the conversion. *)
Lemma add_float_settled lo hi x d :
  In (lo, hi) [(-10, 45); (0, 100); (0, 150); (0, 20)] ->
  settled lo hi x ->
  exists f, py_add_float x d = Ret (PFloat f).
Proof.
  intros Hin Hs. destruct x as [z|f]; [|simpl; eauto].
  simpl in Hin, Hs.
  assert (exists f, float_of_int z = Ret f) as [f Hf].
  { destruct Hin as [H|[H|[H|[H|[]]]]]; injection H as <- <-;
      destruct Hs as [->| ->]; eexists; vm_compute; reflexivity. }
  simpl. rewrite Hf. eauto.
Qed.

(** One update: it returns, the readings are in range and settled, the
    snapshot is recorded and nothing else changes. *)
Lemma update_conditions_spec r e :
  settled_conditions (current_conditions e) ->
  exists c,
    update_conditions r e =
      (Ret tt, mkEnv (location e) c (active_disasters e) (event_history e)
                     (event_counter e) (conditions_history e ++ [c]))
    /\ within_ranges c = true /\ settled_conditions c.
Proof.
  destruct e as [loc [ts t h w aq wl sa] act hist cnt chist].
  intros (Ht & Hh & Hw & Hwl). simpl in *.
  destruct (add_float_settled (-10) 45 t (d_temperature r) ltac:(simpl; tauto) Ht)
    as [ft Eft].
  destruct (add_float_settled 0 100 h (d_humidity r) ltac:(simpl; tauto) Hh)
    as [fh Efh].
  destruct (add_float_settled 0 150 w (d_wind_speed r) ltac:(simpl; tauto) Hw)
    as [fw Efw].
  destruct (add_float_settled 0 20 wl (d_water_level r) ltac:(simpl; tauto) Hwl)
    as [fl Efl].
  eexists.
  unfold update_conditions, add_float, clamp_field, set_conditions, bind, get, lift, modify.
  simpl. rewrite Eft. simpl. rewrite Efh. simpl. rewrite Efw. simpl. rewrite Efl. simpl.
  split; [reflexivity|].
  split.
  - unfold within_ranges. simpl.
    rewrite !clamp_in_range by lia.
    rewrite !(proj2 (Z.leb_le _ _)) by lia. reflexivity.
  - repeat split; apply clamp_settled.
Qed.

(** An update that returns leaves the readings in range, whatever they
    were before. *)
Lemma update_returns_in_range r e e' :
  update_conditions r e = (Ret tt, e') ->
  within_ranges (current_conditions e') = true.
Proof.
  destruct e as [loc [ts t h w aq wl sa] act hist cnt chist].
  unfold update_conditions, add_float, clamp_field, set_conditions, bind, get, lift, modify.
  simpl.
  destruct (py_add_float t (d_temperature r)) as [t'|]; simpl; [|discriminate].
  destruct (py_add_float h (d_humidity r)) as [h'|]; simpl; [|discriminate].
  destruct (py_add_float w (d_wind_speed r)) as [w'|]; simpl; [|discriminate].
  destruct (py_add_float wl (d_water_level r)) as [wl'|]; simpl; [|discriminate].
  intros H. injection H as <-. unfold within_ranges. simpl.
  rewrite !clamp_in_range by lia.
  rewrite !(proj2 (Z.leb_le _ _)) by lia. reflexivity.
Qed.

(** *** Event identifiers *)

Lemma numbered_app c l1 l2 :
  numbered c l1 -> numbered (c + N.of_nat (List.length l1)) l2 -> numbered c (l1 ++ l2).
Proof.
  revert c. induction l1 as [|ev l1 IH]; intros c H1 H2.
  - simpl in *. now rewrite N.add_0_r in H2.
  - destruct H1 as [Hev H1]. split; [exact Hev|]. apply IH; [exact H1|].
    replace (c + 1 + N.of_nat (List.length l1))%N
      with (c + N.of_nat (List.length (ev :: l1)))%N
      by (simpl List.length; lia).
    exact H2.
Qed.

Lemma numbered_ids c l :
  numbered c l ->
  map event_id l = map (fun i => event_name (c + N.of_nat i)) (seq 1 (List.length l)).
Proof.
  revert c. induction l as [|ev l IH]; intros c H; [reflexivity|].
  destruct H as [Hev H]. simpl List.length. cbn [seq map].
  rewrite Hev, (IH _ H), <- (seq_shift (List.length l) 1), map_map.
  f_equal.
  apply map_ext. intros i. f_equal. lia.
Qed.

Lemma event_name_inj n m : event_name n = event_name m -> n = m.
Proof. unfold event_name. intros H. now apply append_inj_l, format_0d_inj in H. Qed.

Lemma numbered_NoDup l : numbered 0 l -> NoDup (map event_id l).
Proof.
  intros H. rewrite (numbered_ids _ _ H).
  apply Injective_map_NoDup; [|apply seq_NoDup].
  intros i j Hij. apply event_name_inj in Hij. lia.
Qed.

Variable round2 : float -> float.

Lemma rule_spec cond t s r acc e :
  exists new e',
    rule round2 cond t s r acc e = (Ret (acc ++ new), e')
    /\ same_frame e e'
    /\ event_counter e' = (event_counter e + N.of_nat (List.length new))%N
    /\ numbered (event_counter e) new.
Proof.
  destruct cond; simpl.
  - eexists [_], _. unfold _create_disaster_event, bind, modify, get, ret. simpl.
    split; [reflexivity|]. unfold same_frame. simpl. repeat split.
  - exists [], e. unfold ret. rewrite app_nil_r, N.add_0_r.
    unfold same_frame. simpl. repeat split.
Qed.

Lemma record_spec (l : list DisasterEvent) e :
  for_each l (fun ev =>
    modify (fun e => mkEnv (location e) (current_conditions e)
                           (active_disasters e ++ [ev]) (event_history e ++ [ev])
                           (event_counter e) (conditions_history e))) e
  = (Ret tt, mkEnv (location e) (current_conditions e)
                   (active_disasters e ++ l) (event_history e ++ l)
                   (event_counter e) (conditions_history e)).
Proof.
  revert e. induction l as [|ev l IH]; intros e.
  - simpl. unfold ret. rewrite !app_nil_r. now destruct e.
  - simpl. unfold bind, modify at 1. rewrite IH. simpl.
    now rewrite <- !app_assoc.
Qed.

(** One check: it returns the new events, which it has appended to both
    lists and which carry the next identifiers; the conditions stay. *)
Lemma check_for_disasters_spec r e :
  exists new,
    check_for_disasters round2 r e =
      (Ret new, mkEnv (location e) (current_conditions e)
                      (active_disasters e ++ new) (event_history e ++ new)
                      (event_counter e + N.of_nat (List.length new))
                      (conditions_history e))
    /\ numbered (event_counter e) new.
Proof.
  unfold check_for_disasters, bind at 1, get.
  set (c := current_conditions e).
  destruct (rule_spec (py_gt (PFloat (seismic_activity c)) (PFloat 4.0)) EARTHQUAKE
              (_determine_earthquake_severity (PFloat (seismic_activity c)))
              (dr_earthquake r) [] e) as (n1 & e1 & E1 & F1 & C1 & N1).
  destruct (rule_spec (py_gt (water_level c) (PFloat 10.0)) FLOOD
              (_determine_flood_severity (water_level c)) (dr_flood r) ([] ++ n1) e1)
    as (n2 & e2 & E2 & F2 & C2 & N2).
  destruct (rule_spec (py_gt (temperature c) (PInt 35) && py_lt (humidity c) (PInt 20)) FIRE
              (_determine_fire_severity (temperature c)) (dr_fire r) (([] ++ n1) ++ n2) e2)
    as (n3 & e3 & E3 & F3 & C3 & N3).
  destruct (rule_spec (py_gt (wind_speed c) (PInt 120)) HURRICANE
              (_determine_hurricane_severity (wind_speed c)) (dr_hurricane r)
              ((([] ++ n1) ++ n2) ++ n3) e3)
    as (n4 & e4 & E4 & F4 & C4 & N4).
  destruct (rule_spec (PrimFloat.ltb (dr_roll r) 0.10) (dr_type r) (dr_severity r)
              (dr_random r) (((([] ++ n1) ++ n2) ++ n3) ++ n4) e4)
    as (n5 & e5 & E5 & F5 & C5 & N5).
  exists (n1 ++ n2 ++ n3 ++ n4 ++ n5).
  unfold bind. rewrite E1, E2, E3, E4, E5, record_spec. unfold ret.
  destruct F1 as (L1 & K1 & A1 & H1 & G1), F2 as (L2 & K2 & A2 & H2 & G2),
    F3 as (L3 & K3 & A3 & H3 & G3), F4 as (L4 & K4 & A4 & H4 & G4),
    F5 as (L5 & K5 & A5 & H5 & G5).
  assert ((((([] ++ n1) ++ n2) ++ n3) ++ n4) ++ n5 = n1 ++ n2 ++ n3 ++ n4 ++ n5) as ->
    by (simpl; now rewrite <- !app_assoc).
  split.
  - f_equal. f_equal; try (subst c; congruence).
    rewrite C5, C4, C3, C2, C1, !List.length_app, !Nat2N.inj_add. lia.
  - rewrite C1 in N2. rewrite C2, C1 in N3. rewrite C3, C2, C1 in N4.
    rewrite C4, C3, C2, C1 in N5.
    apply numbered_app; [exact N1|].
    apply numbered_app; [exact N2|].
    apply numbered_app; [exact N3|].
    apply numbered_app; [exact N4|].
    exact N5.
Qed.

(** *** Sessions *)

Lemma init_sound loc t0 : sound (init loc t0).
Proof.
  unfold sound, init, settled_conditions. simpl.
  repeat split; try constructor.
Qed.

Lemma monitor_session_sound ticks e :
  sound e ->
  exists e',
    monitor_session round2 ticks e = (Ret tt, e') /\ sound e'
    /\ List.length (conditions_history e')
       = (List.length (conditions_history e) + List.length ticks)%nat.
Proof.
  revert e. induction ticks as [|[u r] ticks IH]; intros e He.
  - exists e. simpl. unfold ret. auto.
  - destruct He as (Hs & Hr & Hh & Hn & Hc).
    destruct (update_conditions_spec u e Hs) as (c & Eu & Hrc & Hsc).
    set (e1 := mkEnv (location e) c (active_disasters e) (event_history e)
                     (event_counter e) (conditions_history e ++ [c])) in *.
    destruct (check_for_disasters_spec r e1) as (new & Ec & Hnew).
    set (e2 := mkEnv _ _ _ _ _ _) in Ec.
    destruct (IH e2) as (e' & Es & He' & Hlen).
    { unfold sound, e2, e1.
      cbn [current_conditions conditions_history event_history event_counter].
      split; [exact Hsc|]. split; [exact Hrc|]. split; [|split].
      - apply Forall_app. split; auto.
      - apply numbered_app; [exact Hn|]. simpl. now rewrite <- Hc.
      - rewrite Hc, List.length_app. lia. }
    exists e'. split; [|split; [exact He'|]].
    + simpl. unfold monitor_run, bind. rewrite Eu, Ec. exact Es.
    + rewrite Hlen. unfold e2, e1. simpl. rewrite List.length_app. simpl. lia.
Qed.

(** C2. After an update that returns, each clamped reading is within its
    range, whatever the readings were before and whatever was drawn:
    temperature in [-10,45], humidity in [0,100], wind speed in [0,150], air
    quality in [0,500], water level in [0,20].  And a monitoring session
    that starts from the initial conditions never raises, for any draws of
    the random source: after every one of its updates (the current
    conditions and the snapshots in the conditions history, one per tick)
    the readings are within these ranges. *)
Theorem conditions_stay_in_range :
  (forall (r : update_draws) (e e' : DisasterEnvironment),
      update_conditions r e = (Ret tt, e') ->
      within_ranges (current_conditions e') = true)
  /\ (forall (loc t0 : string) (ticks : list (update_draws * check_draws)),
        exists e,
          monitor_session round2 ticks (init loc t0) = (Ret tt, e)
          /\ within_ranges (current_conditions e) = true
          /\ Forall (fun c => within_ranges c = true) (conditions_history e)
          /\ List.length (conditions_history e) = List.length ticks).
Proof.
  split; [exact update_returns_in_range|].
  intros loc t0 ticks.
  destruct (monitor_session_sound ticks (init loc t0) (init_sound loc t0))
    as (e & Es & (_ & Hr & Hh & _) & Hlen).
  exists e. repeat split; auto.
Qed.

(** C8, as the code has it. In a monitoring session the identifiers of the
    events of one environment are pairwise distinct: they are EVENT-0001,
    EVENT-0002, ... in the order of creation, up to the event counter.  The
    sensor of the protocol keeps no counter: the identifier it gives is
    EVENT- followed by the random integer it draws. *)
Theorem environment_event_ids_unique
    (loc t0 : string) (ticks : list (update_draws * check_draws)) :
  (exists e,
      monitor_session round2 ticks (init loc t0) = (Ret tt, e)
      /\ NoDup (map event_id (event_history e))
      /\ map event_id (event_history e)
         = map (fun i => event_name (N.of_nat i))
               (seq 1 (N.to_nat (event_counter e))))
  /\ (forall r : Lab4.disaster_draws,
         dict_get "event_id" (Lab4._generate_disaster r)
         = Some (JStr ("EVENT-" ++ str_of_Z (Lab4.dd_id r)))).
Proof.
  split; [|reflexivity].
  destruct (monitor_session_sound ticks (init loc t0) (init_sound loc t0))
    as (e & Es & (_ & _ & _ & Hn & Hc) & _).
  exists e. split; [exact Es|]. split; [now apply numbered_NoDup|].
  rewrite (numbered_ids _ _ Hn), Hc, Nat2N.id. reflexivity.
Qed.

End Lab2Facts.

(** ** Lab 3 *)

Section Lab3Facts.
Import Lab3.
Variable json_loads : string -> outcome json.
Variable clock : nat -> string.

(** *** PLANNING *)

Lemma create_goals_spec l : forall counter a,
  create_goals clock counter l a =
    (Ret (created clock (clock_reads a) counter l), tick (List.length l) a).
Proof.
  induction l as [|[ty p] l IH]; intros counter a.
  - simpl. unfold ret, tick. now destruct a.
  - simpl. unfold bind, now at 1. rewrite IH. unfold ret, tick. simpl.
    repeat f_equal. lia.
Qed.

Lemma append_goals_spec (l : list Goal) : forall a,
  for_each l (fun goal => set_goals (fun gs => gs ++ [goal])) a =
    (Ret tt, with_goals (goals a ++ l) a).
Proof.
  induction l as [|g l IH]; intros a.
  - simpl. unfold ret, with_goals. rewrite app_nil_r. now destruct a.
  - simpl. unfold bind, set_goals at 1, modify. rewrite IH.
    unfold with_goals. simpl. now rewrite <- app_assoc.
Qed.

Lemma created_summary t counter l :
  map goal_summary (created clock t counter l) = map (fun tp => (fst tp, snd tp, "pending")) l.
Proof.
  revert t counter. induction l as [|[ty p] l IH]; intros; simpl; [reflexivity|].
  now rewrite IH.
Qed.

Lemma created_length t counter l : List.length (created clock t counter l) = List.length l.
Proof. revert t counter. induction l as [|[ty p] l IH]; intros; simpl; auto. Qed.

Lemma created_ids t counter l :
  map goal_id (created clock t counter l) = map goal_id_of (seq (S counter) (List.length l)).
Proof.
  revert t counter. induction l as [|[ty p] l IH]; intros; simpl; [reflexivity|].
  now rewrite IH.
Qed.

(** C1. For an event whose severity PLANNING reads as the integer [s], the
    visit returns and appends to the agent's goals exactly the goals the
    severity calls for, in this order: DEPLOY_RESOURCES (5) and
    EVACUATE_CIVILIANS (5) always, PROVIDE_MEDICAL_AID (4) exactly when
    [s >= 3], RESTORE_INFRASTRUCTURE (3) exactly when [s >= 4],
    MONITOR_RECOVERY (2) always, all pending and numbered on from the goals
    the agent already has; for severity 5 these are five goals, for severity
    1 three. *)
Theorem planning_goals_by_severity (a : agent) (d : dict) (s : Z) :
  current_event a = JObj d ->
  py_get (JObj d) "severity" (JInt 1) = Ret (JInt s) ->
  exists new a',
    PlanningState_run clock a = (Ret STATE_RESPONDING, a')
    /\ goals a' = goals a ++ new
    /\ map goal_summary new = planned s
    /\ map goal_id new = map goal_id_of (seq (S (List.length (goals a))) (List.length new))
    /\ (In (PROVIDE_MEDICAL_AID, 4, "pending") (planned s) <-> 3 <= s)
    /\ (In (RESTORE_INFRASTRUCTURE, 3, "pending") (planned s) <-> 4 <= s)
    /\ planned 5 = [(DEPLOY_RESOURCES, 5, "pending"); (EVACUATE_CIVILIANS, 5, "pending");
                    (PROVIDE_MEDICAL_AID, 4, "pending");
                    (RESTORE_INFRASTRUCTURE, 3, "pending");
                    (MONITOR_RECOVERY, 2, "pending")]
    /\ planned 1 = [(DEPLOY_RESOURCES, 5, "pending"); (EVACUATE_CIVILIANS, 5, "pending");
                    (MONITOR_RECOVERY, 2, "pending")].
Proof.
  intros Hev Hsev.
  unfold PlanningState_run, _generate_response_goals.
  unfold bind at 1, get. rewrite Hev.
  unfold bind at 1, lift at 1. rewrite Hsev.
  unfold bind at 1. unfold bind at 1, get.
  unfold bind at 1, lift at 1, py_ge_int, as_num, py_ge, py_le.
  unfold bind at 1, lift at 1.
  rewrite create_goals_spec.
  unfold bind at 1. rewrite append_goals_spec.
  unfold bind, now, trace_append, modify, ret. simpl.
  eexists _, _. split; [reflexivity|]. simpl.
  split; [reflexivity|].
  rewrite created_summary, created_ids, created_length.
  unfold planned.
  destruct (3 <=? s) eqn:E3; destruct (4 <=? s) eqn:E4; simpl;
    repeat split; try reflexivity; intros; try lia;
    repeat match goal with
           | H : _ \/ _ |- _ => destruct H
           | H : (_, _, _) = (_, _, _) |- _ => discriminate H
           | H : False |- _ => destruct H
           | H : (_ <=? _) = true |- _ => apply Z.leb_le in H
           | H : (_ <=? _) = false |- _ => apply Z.leb_gt in H
           end; try lia; auto 10.
Qed.

(** *** The order of execution *)

Lemma insert_desc_perm x l : Permutation (insert_desc x l) (x :: l).
Proof.
  induction l as [|y l IH]; simpl; [reflexivity|].
  destruct (priority (snd x) <? priority (snd y)); [|reflexivity].
  rewrite IH. apply perm_swap.
Qed.

Lemma sort_desc_perm l : Permutation (sort_desc l) l.
Proof.
  induction l as [|x l IH]; simpl; [reflexivity|].
  rewrite insert_desc_perm. now constructor.
Qed.

Lemma insert_desc_sorted x l :
  StronglySorted runs_before l ->
  Forall (fun y => (fst x < fst y)%nat) l ->
  StronglySorted runs_before (insert_desc x l).
Proof.
  induction l as [|y l IH]; intros Hs Hx; simpl.
  - repeat constructor.
  - apply StronglySorted_inv in Hs. destruct Hs as [Hs Hy].
    apply Forall_cons_iff in Hx. destruct Hx as [Hxy Hx].
    destruct (priority (snd x) <? priority (snd y)) eqn:E.
    + apply Z.ltb_lt in E. constructor; [now apply IH|].
      rewrite (insert_desc_perm x l). constructor; [|exact Hy].
      left. exact E.
    + apply Z.ltb_ge in E. constructor; [now constructor|].
      constructor.
      * unfold runs_before. lia.
      * rewrite Forall_forall in *. intros z Hz.
        specialize (Hy z Hz). specialize (Hx z Hz).
        unfold runs_before in *. lia.
Qed.

Lemma sort_desc_sorted l :
  StronglySorted (fun x y : nat * Goal => (fst x < fst y)%nat) l ->
  StronglySorted runs_before (sort_desc l).
Proof.
  induction l as [|x l IH]; intros Hs; simpl; [constructor|].
  apply StronglySorted_inv in Hs. destruct Hs as [Hs Hx].
  apply insert_desc_sorted; [now apply IH|].
  now rewrite (sort_desc_perm l).
Qed.

Lemma StronglySorted_nth_error {A} (R : A -> A -> Prop) l :
  StronglySorted R l ->
  forall j k x y, (j < k)%nat ->
    nth_error l j = Some x -> nth_error l k = Some y -> R x y.
Proof.
  induction 1 as [|a l Hs IH Ha]; intros j k x y Hjk Hj Hk.
  - destruct j; discriminate.
  - destruct k as [|k]; [lia|]. simpl in Hk.
    destruct j as [|j]; simpl in Hj.
    + injection Hj as <-. rewrite Forall_forall in Ha.
      apply Ha. eapply nth_error_In; eauto.
    + eapply IH; [|eassumption|eassumption]. lia.
Qed.

(** *** Positions of the pending goals *)

Lemma combine_seq_In (gs : list Goal) : forall s i g,
  In (i, g) (combine (seq s (List.length gs)) gs)
  <-> (s <= i)%nat /\ nth_error gs (i - s) = Some g.
Proof.
  induction gs as [|g0 gs IH]; intros s i g; simpl.
  - split; [tauto|]. intros [_ H]. destruct (i - s)%nat; discriminate.
  - rewrite IH. split.
    + intros [H|[H1 H2]].
      * injection H as <- <-. rewrite Nat.sub_diag. auto.
      * split; [lia|]. replace (i - s)%nat with (S (i - S s)) by lia. exact H2.
    + intros [H1 H2]. destruct (i - s)%nat as [|k] eqn:E.
      * left. simpl in H2. injection H2 as <-. f_equal. lia.
      * right. split; [lia|]. simpl in H2. replace (i - S s)%nat with k by lia. exact H2.
Qed.

Lemma combine_seq_sorted (gs : list Goal) : forall s,
  StronglySorted (fun x y : nat * Goal => (fst x < fst y)%nat)
                 (combine (seq s (List.length gs)) gs).
Proof.
  induction gs as [|g0 gs IH]; intros s; simpl; constructor; [apply IH|].
  rewrite Forall_forall. intros [i g] Hin. apply combine_seq_In in Hin. simpl. lia.
Qed.

Lemma filter_sorted {A} (R : A -> A -> Prop) (p : A -> bool) l :
  StronglySorted R l -> StronglySorted R (filter p l).
Proof.
  induction 1 as [|a l Hs IH Ha]; simpl; [constructor|].
  destruct (p a); [|exact IH].
  constructor; [exact IH|].
  rewrite Forall_forall in *. intros x Hx. apply filter_In in Hx. now apply Ha.
Qed.

Lemma pending_goals_In gs i g :
  In (i, g) (pending_goals gs) <-> nth_error gs i = Some g /\ status g = "pending".
Proof.
  unfold pending_goals. rewrite filter_In, combine_seq_In. simpl.
  rewrite Nat.sub_0_r, String.eqb_eq. intuition lia.
Qed.

Lemma pending_goals_sorted gs :
  StronglySorted (fun x y : nat * Goal => (fst x < fst y)%nat) (pending_goals gs).
Proof. apply filter_sorted, combine_seq_sorted. Qed.

Lemma runs_before_asym x y : runs_before x y -> runs_before y x -> False.
Proof. unfold runs_before. lia. Qed.

(** Two lists in execution order with the same elements are the same
    list. *)
Lemma execution_order_unique (l1 : list (nat * Goal)) : forall l2,
  StronglySorted runs_before l1 -> StronglySorted runs_before l2 ->
  Permutation l1 l2 -> l1 = l2.
Proof.
  induction l1 as [|x1 l1 IH]; intros l2 H1 H2 HP.
  - apply Permutation_nil in HP. now subst.
  - destruct l2 as [|x2 l2];
      [apply Permutation_sym, Permutation_nil in HP; discriminate|].
    apply StronglySorted_inv in H1. destruct H1 as [H1 F1].
    apply StronglySorted_inv in H2. destruct H2 as [H2 F2].
    rewrite Forall_forall in F1, F2.
    assert (x1 = x2) as ->.
    { assert (In x1 (x2 :: l2)) as I1 by (eapply Permutation_in; [exact HP|now left]).
      assert (In x2 (x1 :: l1)) as I2
        by (eapply Permutation_in; [symmetry; exact HP|now left]).
      destruct I1 as [E|I1]; [now symmetry|].
      destruct I2 as [E|I2]; [exact E|].
      exfalso. exact (runs_before_asym _ _ (F1 _ I2) (F2 _ I1)). }
    f_equal. apply IH; auto. now apply Permutation_cons_inv in HP.
Qed.

(** Whatever algorithm [list.sort] runs: a rearrangement of the pending
    goals by descending priority that keeps equal priorities in their order
    is [sort_desc] of them. *)
Lemma sort_desc_is_the_stable_sort (gs : list Goal) (l : list (nat * Goal)) :
  Permutation l (pending_goals gs) -> StronglySorted runs_before l ->
  l = sort_desc (pending_goals gs).
Proof.
  intros HP HS. apply execution_order_unique; [exact HS| |].
  - apply sort_desc_sorted, pending_goals_sorted.
  - rewrite HP. symmetry. apply sort_desc_perm.
Qed.

Lemma sorted_fst_NoDup (l : list (nat * Goal)) :
  StronglySorted (fun x y => (fst x < fst y)%nat) l -> NoDup (map fst l).
Proof.
  induction 1 as [|a l Hs IH Ha]; simpl; constructor; [|exact IH].
  rewrite in_map_iff. intros [x [Hx Hin]].
  rewrite Forall_forall in Ha. specialize (Ha x Hin). lia.
Qed.

(** *** Executing the goals *)

Lemma update_nth_length {A} (f : A -> A) l : forall i,
  List.length (update_nth i f l) = List.length l.
Proof. induction l as [|x l IH]; intros [|i]; simpl; auto. Qed.

Lemma update_nth_same {A} (f : A -> A) l : forall i,
  nth_error (update_nth i f l) i = option_map f (nth_error l i).
Proof. induction l as [|x l IH]; intros [|i]; simpl; auto. Qed.

Lemma update_nth_other {A} (f : A -> A) l : forall i j,
  i <> j -> nth_error (update_nth i f l) j = nth_error l j.
Proof.
  induction l as [|x l IH]; intros [|i] [|j] H; simpl; auto; try congruence.
Qed.

Lemma execute_spec l : forall a,
  for_each l (execute_goal clock) a =
    (Ret tt, tick (List.length l) (with_goals (executed clock (clock_reads a) l (goals a)) a)).
Proof.
  induction l as [|ig l IH]; intros a.
  - simpl. unfold ret, tick, with_goals. now destruct a.
  - cbn [for_each]. unfold bind at 1.
    unfold execute_goal, bind, set_goals, modify, now. cbn [fst snd].
    rewrite IH. unfold tick, with_goals. simpl. repeat f_equal. lia.
Qed.

Lemma executed_length l : forall t gs,
  List.length (executed clock t l gs) = List.length gs.
Proof.
  induction l as [|ig l IH]; intros; simpl; [reflexivity|].
  now rewrite IH, !update_nth_length.
Qed.

Lemma executed_other l : forall t gs i,
  ~ In i (map fst l) -> nth_error (executed clock t l gs) i = nth_error gs i.
Proof.
  induction l as [|ig l IH]; intros t gs i Hi; simpl; [reflexivity|].
  simpl in Hi. rewrite IH by tauto.
  rewrite !update_nth_other by tauto. reflexivity.
Qed.

Lemma executed_at l : forall t gs k i g0 g,
  NoDup (map fst l) ->
  nth_error l k = Some (i, g0) ->
  nth_error gs i = Some g ->
  nth_error (executed clock t l gs) i
  = Some (set_completed_at (clock (t + k)) (set_status "completed" g)).
Proof.
  induction l as [|ig l IH]; intros t gs k i g0 g Hnd Hk Hg.
  - destruct k; discriminate.
  - simpl in Hnd. apply NoDup_cons_iff in Hnd. destruct Hnd as [Hni Hnd].
    destruct k as [|k]; simpl in Hk.
    + injection Hk as ->. simpl. rewrite executed_other by exact Hni.
      rewrite !update_nth_same, Hg. simpl. now rewrite Nat.add_0_r.
    + simpl. assert (fst ig <> i) as Hne.
      { intros <-. apply Hni. apply in_map_iff. exists (fst ig, g0).
        split; [reflexivity|]. eapply nth_error_In; eauto. }
      rewrite (IH (S t) _ k i g0 g Hnd Hk).
      * do 3 f_equal. lia.
      * now rewrite !update_nth_other.
Qed.

(** C5. RESPONDING returns for any goals the agent holds.  What it executes
    are exactly the goals whose status is pending, each once; it takes them
    in non-increasing priority, and among goals of equal priority in the
    order of their positions in the agent's list (the order of creation).
    The k-th goal executed gets status completed and the k-th reading of the
    clock as completion time; every other goal is left as it was. *)
Theorem responding_runs_pending_by_priority (a : agent) :
  let pending := sort_desc (pending_goals (goals a)) in
  exists a',
    RespondingState_run clock a = (Ret STATE_MONITORING, a')
    /\ (forall i g, In (i, g) pending
                   <-> nth_error (goals a) i = Some g /\ status g = "pending")
    /\ NoDup (map fst pending)
    /\ (forall j k x y, (j < k)%nat ->
          nth_error pending j = Some x -> nth_error pending k = Some y ->
          priority (snd y) <= priority (snd x)
          /\ (priority (snd x) = priority (snd y) -> (fst x < fst y)%nat))
    /\ List.length (goals a') = List.length (goals a)
    /\ (forall k i g, nth_error pending k = Some (i, g) ->
          nth_error (goals a') i
          = Some (set_completed_at (clock (clock_reads a + k))
                                   (set_status "completed" g)))
    /\ (forall i, ~ In i (map fst pending) ->
          nth_error (goals a') i = nth_error (goals a) i).
Proof.
  intros pending.
  assert (Permutation pending (pending_goals (goals a))) as Hperm
    by apply sort_desc_perm.
  assert (NoDup (map fst pending)) as Hnd.
  { eapply Permutation_NoDup; [apply Permutation_map; symmetry; exact Hperm|].
    apply sorted_fst_NoDup, pending_goals_sorted. }
  assert (forall i g, In (i, g) pending
                      <-> nth_error (goals a) i = Some g /\ status g = "pending") as Hin.
  { intros i g. rewrite <- pending_goals_In. split; apply Permutation_in; auto.
    now symmetry. }
  eexists. split.
  { unfold RespondingState_run. unfold bind at 1, get. fold pending.
    unfold bind at 1. rewrite execute_spec.
    unfold bind, now, trace_append, modify, ret. simpl. reflexivity. }
  simpl. split; [exact Hin|]. split; [exact Hnd|]. split; [|split; [|split]].
  - intros j k x y Hjk Hj Hk.
    pose proof (StronglySorted_nth_error _ _
                  (sort_desc_sorted _ (pending_goals_sorted (goals a)))
                  j k x y Hjk Hj Hk) as H.
    unfold runs_before in H. lia.
  - apply executed_length.
  - intros k i g Hk. eapply executed_at; eauto.
    apply (Hin i g). eapply nth_error_In; eauto.
  - intros i Hi. now apply executed_other.
Qed.


(** *** One visit of each state *)

Lemma idle_timeout a :
  IdleState_run json_loads clock None a =
    (Ret STATE_IDLE,
     mkAgent (current_event a) (goals a) (fsm_trace a) (clock_reads a)
             (log a ++ [(INFO, WaitingForAlerts)])).
Proof. reflexivity. Qed.

Lemma idle_undecodable m a :
  loads_body json_loads (body m) = Raise JSONDecodeError ->
  IdleState_run json_loads clock (Some m) a =
    (Ret STATE_IDLE,
     mkAgent (current_event a) (goals a) (fsm_trace a) (clock_reads a)
             (log a ++ [(INFO, WaitingForAlerts); (WARNING, AlertReceived);
                        (ERROR, FailedToParse)])).
Proof.
  intros H. unfold IdleState_run, bind, try_except, logger, modify, lift. simpl.
  rewrite H. simpl. unfold ret. now rewrite <- !app_assoc.
Qed.

Lemma idle_event m d a :
  loads_body json_loads (body m) = Ret (JObj d) ->
  IdleState_run json_loads clock (Some m) a =
    (Ret STATE_ANALYZING,
     mkAgent (JObj d) (goals a)
             (fsm_trace a ++
                [[("state", JStr "IDLE"); ("timestamp", JStr (clock (clock_reads a)));
                  ("action", JStr "Received disaster alert");
                  ("event_id", match dict_get "event_id" d with
                               | Some v => v
                               | None => JStr "UNKNOWN"
                               end)]])
             (S (clock_reads a))
             (log a ++ [(INFO, WaitingForAlerts); (WARNING, AlertReceived);
                        (INFO, EventInfo
                                 (match dict_get "disaster_type" d with
                                  | Some v => v | None => JNull end)
                                 (match dict_get "severity_name" d with
                                  | Some v => v | None => JNull end))])).
Proof.
  intros H. unfold IdleState_run, bind, try_except, logger, modify, lift. simpl.
  rewrite H. simpl. unfold ret. now rewrite <- !app_assoc.
Qed.

Lemma idle_not_a_dict m v a :
  loads_body json_loads (body m) = Ret v -> is_dict v = false ->
  IdleState_run json_loads clock (Some m) a =
    (Raise AttributeError,
     mkAgent v (goals a) (fsm_trace a) (S (clock_reads a))
             (log a ++ [(INFO, WaitingForAlerts); (WARNING, AlertReceived)])).
Proof.
  intros H Hv. unfold IdleState_run, bind, try_except, logger, modify, lift. simpl.
  rewrite H. destruct v; try discriminate; simpl; now rewrite <- !app_assoc.
Qed.

Lemma idle_other_error m e a :
  loads_body json_loads (body m) = Raise e -> e <> JSONDecodeError ->
  IdleState_run json_loads clock (Some m) a =
    (Raise e,
     mkAgent (current_event a) (goals a) (fsm_trace a) (clock_reads a)
             (log a ++ [(INFO, WaitingForAlerts); (WARNING, AlertReceived)])).
Proof.
  intros H He. unfold IdleState_run, bind, try_except, logger, modify, lift. simpl.
  rewrite H. destruct e; try congruence; simpl; now rewrite <- !app_assoc.
Qed.

(** An IDLE visit that returns either loops (nothing received, or a body
    that is not JSON) and leaves the trace alone, or hands a decoded object
    over to ANALYZING with one entry. *)
Lemma idle_returns msg a st' a' :
  IdleState_run json_loads clock msg a = (Ret st', a') ->
  (st' = STATE_IDLE /\ fsm_trace a' = fsm_trace a /\ goals a' = goals a
   /\ (msg = None
       \/ exists m, msg = Some m /\ loads_body json_loads (body m) = Raise JSONDecodeError))
  \/ (st' = STATE_ANALYZING /\ visit_recorded STATE_IDLE a a'
      /\ is_dict (current_event a') = true /\ goals a' = goals a).
Proof.
  destruct msg as [m|].
  - destruct (loads_body json_loads (body m)) as [v|e] eqn:E.
    + destruct (is_dict v) eqn:Hv.
      * destruct v; try discriminate. rewrite (idle_event _ _ _ E).
        intros H. injection H as <- <-. right.
        split; [reflexivity|]. split; [|split; reflexivity].
        eexists _, _, _. split; [reflexivity|]. cbn [goals]. lia.
      * rewrite (idle_not_a_dict _ _ _ E Hv). discriminate.
    + destruct (exn_eqb e JSONDecodeError) eqn:Ee.
      * destruct e; try discriminate. rewrite (idle_undecodable _ _ E).
        intros H. injection H as <- <-. left. simpl. repeat split; eauto.
      * rewrite (idle_other_error _ _ _ E) by (intros ->; discriminate). discriminate.
  - rewrite idle_timeout. intros H. injection H as <- <-. left. simpl. auto.
Qed.

Lemma analyzing_spec a d :
  current_event a = JObj d ->
  exists a',
    AnalyzingState_run clock a = (Ret STATE_PLANNING, a')
    /\ visit_recorded STATE_ANALYZING a a'
    /\ current_event a' = JObj d
    /\ List.length (goals a') = S (List.length (goals a)).
Proof.
  intros H. unfold AnalyzingState_run, bind, get, lift, now, set_goals, trace_append,
    modify, ret. rewrite H. simpl.
  eexists. split; [reflexivity|]. simpl.
  split; [|split; [reflexivity|]].
  - eexists _, _, _. split; [reflexivity|]. cbn [goals].
    rewrite !update_nth_length, List.length_app. lia.
  - rewrite !update_nth_length, List.length_app. simpl. lia.
Qed.

Lemma needs_dict_analyzing a st' a' :
  AnalyzingState_run clock a = (Ret st', a') -> is_dict (current_event a) = true.
Proof.
  unfold AnalyzingState_run, bind at 1, get. unfold bind at 1, lift at 1.
  destruct (current_event a); simpl; try discriminate. reflexivity.
Qed.

Lemma planning_spec a d n :
  current_event a = JObj d ->
  as_num (event_severity d) = Some n ->
  exists a',
    PlanningState_run clock a = (Ret STATE_RESPONDING, a')
    /\ visit_recorded STATE_PLANNING a a'
    /\ current_event a' = JObj d.
Proof.
  intros H Hn. unfold PlanningState_run, _generate_response_goals.
  unfold bind at 1, get. rewrite H.
  unfold bind at 1, lift at 1. cbn [py_get]. fold (event_severity d).
  unfold bind at 1. unfold bind at 1, get.
  unfold bind at 1, lift at 1, py_ge_int. rewrite Hn.
  unfold bind at 1, lift at 1.
  rewrite create_goals_spec.
  unfold bind at 1. rewrite append_goals_spec.
  unfold bind, now, trace_append, modify, ret. simpl.
  eexists. split; [reflexivity|]. simpl. split; [|exact H].
  eexists _, _, _. split; [reflexivity|].
  cbn [goals]. rewrite List.length_app. lia.
Qed.

Lemma planning_returns a st' a' :
  PlanningState_run clock a = (Ret st', a') ->
  st' = STATE_RESPONDING /\ visit_recorded STATE_PLANNING a a'.
Proof.
  intros Hrun.
  destruct (current_event a) as [| | | | | |d] eqn:H;
    try (revert Hrun; unfold PlanningState_run, bind at 1, get; rewrite H;
         unfold bind at 1, lift at 1; simpl; discriminate).
  destruct (as_num (event_severity d)) as [n|] eqn:Hn.
  - destruct (planning_spec a d n H Hn) as (a2 & E & V & _).
    rewrite E in Hrun. injection Hrun as <- <-. auto.
  - revert Hrun. unfold PlanningState_run, _generate_response_goals.
    unfold bind at 1, get. rewrite H.
    unfold bind at 1, lift at 1. cbn [py_get]. fold (event_severity d).
    unfold bind at 1. unfold bind at 1, get.
    unfold bind at 1, lift at 1, py_ge_int. rewrite Hn. discriminate.
Qed.

Lemma responding_spec a :
  exists a',
    RespondingState_run clock a = (Ret STATE_MONITORING, a')
    /\ visit_recorded STATE_RESPONDING a a'
    /\ current_event a' = current_event a.
Proof.
  unfold RespondingState_run. unfold bind at 1, get.
  unfold bind at 1. rewrite execute_spec.
  unfold bind, now, trace_append, modify, ret. simpl.
  eexists. split; [reflexivity|]. simpl. split; [|reflexivity].
  eexists _, _, _. split; [reflexivity|].
  cbn [goals]. rewrite executed_length. lia.
Qed.

Lemma monitoring_spec a :
  (1 <= List.length (goals a))%nat ->
  exists a',
    MonitoringState_run clock a = (Ret STATE_COMPLETED, a')
    /\ visit_recorded STATE_MONITORING a a'
    /\ current_event a' = current_event a.
Proof.
  intros H. unfold MonitoringState_run, bind, get, lift, now, trace_append, modify, ret.
  destruct (goals a) as [|g gs] eqn:E; [simpl in H; lia|]. simpl.
  eexists. split; [reflexivity|]. split; [|reflexivity].
  eexists _, _, _. split; [reflexivity|]. cbn [goals]. rewrite E. lia.
Qed.

Lemma monitoring_without_goals a :
  goals a = [] -> MonitoringState_run clock a = (Raise ZeroDivisionError, a).
Proof.
  intros H. unfold MonitoringState_run, bind, get, lift. rewrite H. reflexivity.
Qed.

Lemma completed_spec a d :
  current_event a = JObj d ->
  exists a',
    CompletedState_run clock a = (Ret STATE_IDLE, a')
    /\ visit_recorded STATE_COMPLETED a a'
    /\ current_event a' = JNull.
Proof.
  intros H. unfold CompletedState_run, bind, get, lift, now, trace_append,
    set_current_event, modify, ret. rewrite H. simpl.
  eexists. split; [reflexivity|]. split; [|reflexivity].
  eexists _, _, _. split; [reflexivity|]. cbn [goals]. lia.
Qed.

Lemma completed_returns a st' a' :
  CompletedState_run clock a = (Ret st', a') ->
  st' = STATE_IDLE /\ visit_recorded STATE_COMPLETED a a'.
Proof.
  intros Hrun. destruct (current_event a) as [| | | | | |d] eqn:H;
    try (revert Hrun; unfold CompletedState_run, bind at 1, get; rewrite H;
         unfold bind at 1, lift at 1; simpl; discriminate).
  destruct (completed_spec a d H) as (a2 & E & V & _).
  rewrite E in Hrun. injection Hrun as <- <-. auto.
Qed.

Lemma analyzing_returns a st' a' :
  AnalyzingState_run clock a = (Ret st', a') ->
  st' = STATE_PLANNING /\ visit_recorded STATE_ANALYZING a a'
  /\ (1 <= List.length (goals a'))%nat.
Proof.
  intros Hrun. pose proof (needs_dict_analyzing _ _ _ Hrun) as Hd.
  destruct (current_event a) as [| | | | | |d] eqn:H; try discriminate.
  destruct (analyzing_spec a d H) as (a2 & E & V & _ & L).
  rewrite E in Hrun. injection Hrun as <- <-. repeat split; auto. lia.
Qed.

Lemma monitoring_returns a st' a' :
  MonitoringState_run clock a = (Ret st', a') ->
  st' = STATE_COMPLETED /\ visit_recorded STATE_MONITORING a a'.
Proof.
  intros Hrun. destruct (goals a) as [|g gs] eqn:E.
  - rewrite (monitoring_without_goals a E) in Hrun. discriminate.
  - destruct (monitoring_spec a) as (a2 & E2 & V & _); [rewrite E; simpl; lia|].
    rewrite E2 in Hrun. injection Hrun as <- <-. auto.
Qed.

Lemma responding_returns a st' a' :
  RespondingState_run clock a = (Ret st', a') ->
  st' = STATE_MONITORING /\ visit_recorded STATE_RESPONDING a a'.
Proof.
  intros Hrun. destruct (responding_spec a) as (a2 & E & V & _).
  rewrite E in Hrun. injection Hrun as <- <-. auto.
Qed.


Lemma fsm_step_returns st msg a st' a' :
  fsm_step json_loads clock st msg a = (Ret st', a') ->
  (st = STATE_IDLE /\ st' = STATE_IDLE /\ fsm_trace a' = fsm_trace a
   /\ goals a' = goals a
   /\ (msg = None
       \/ exists m, msg = Some m
                    /\ loads_body json_loads (body m) = Raise JSONDecodeError))
  \/ (st' = next_state st /\ visit_recorded st a a').
Proof.
  destruct st; simpl; intros H.
  - apply idle_returns in H.
    destruct H as [(-> & Ht & Hg & Hm)|(-> & V & _)];
      [left; repeat split; assumption | right; split; [reflexivity|assumption]].
  - apply analyzing_returns in H. destruct H as (-> & V & _). right. now split.
  - apply planning_returns in H. destruct H as (-> & V). right. now split.
  - apply responding_returns in H. destruct H as (-> & V). right. now split.
  - apply monitoring_returns in H. destruct H as (-> & V). right. now split.
  - apply completed_returns in H. destruct H as (-> & V). right. now split.
Qed.

Lemma fsm_run_receive fuel m rest a st1 a1 :
  fsm_step json_loads clock STATE_IDLE m a = (Ret st1, a1) ->
  fsm_run json_loads clock (S fuel) (m :: rest) STATE_IDLE a
  = fsm_run json_loads clock fuel rest st1 a1.
Proof. intros H. cbn [fsm_run]. unfold bind. now rewrite H. Qed.

Lemma fsm_run_busy fuel inbox st a st1 a1 :
  is_idle st = false ->
  fsm_step json_loads clock st None a = (Ret st1, a1) ->
  fsm_run json_loads clock (S fuel) inbox st a
  = fsm_run json_loads clock fuel inbox st1 a1.
Proof.
  intros Hst H. cbn [fsm_run]. destruct st; try discriminate;
    unfold bind; now rewrite H.
Qed.

Lemma full_cycle m d n a :
  loads_body json_loads (body m) = Ret (JObj d) ->
  as_num (event_severity d) = Some n ->
  exists a' entries,
    fsm_run json_loads clock 6 [Some m] STATE_IDLE a = (Ret STATE_IDLE, a')
    /\ fsm_trace a' = fsm_trace a ++ entries
    /\ map entry_state entries = tags cycle
    /\ current_event a' = JNull.
Proof.
  intros Hm Hn.
  pose proof (idle_event m d a Hm) as E1.
  set (a1 := mkAgent _ _ _ _ _) in E1.
  destruct (analyzing_spec a1 d eq_refl)
    as (a2 & E2 & (ts2 & ac2 & k2 & T2 & L2) & C2 & G2).
  destruct (planning_spec a2 d n C2 Hn) as (a3 & E3 & (ts3 & ac3 & k3 & T3 & L3) & C3).
  destruct (responding_spec a3) as (a4 & E4 & (ts4 & ac4 & k4 & T4 & L4) & C4).
  destruct (monitoring_spec a4) as (a5 & E5 & (ts5 & ac5 & k5 & T5 & L5) & C5); [lia|].
  destruct (completed_spec a5 d) as (a6 & E6 & (ts6 & ac6 & k6 & T6 & L6) & C6);
    [congruence|].
  exists a6. eexists.
  split; [|split; [|split]].
  - rewrite (fsm_run_receive _ _ _ _ _ _ E1).
    rewrite (fsm_run_busy _ _ STATE_ANALYZING _ _ _ eq_refl E2).
    rewrite (fsm_run_busy _ _ STATE_PLANNING _ _ _ eq_refl E3).
    rewrite (fsm_run_busy _ _ STATE_RESPONDING _ _ _ eq_refl E4).
    rewrite (fsm_run_busy _ _ STATE_MONITORING _ _ _ eq_refl E5).
    rewrite (fsm_run_busy _ _ STATE_COMPLETED _ _ _ eq_refl E6).
    reflexivity.
  - rewrite T6, T5, T4, T3, T2. subst a1. cbn [fsm_trace].
    rewrite <- !app_assoc. cbn [app]. reflexivity.
  - reflexivity.
  - exact C6.
Qed.

(** C6, as the code has it. A visit that returns either hands over to the
    next state and appends exactly one entry to the trace, which starts with
    the visited state, a timestamp and the action; or it is an IDLE visit
    that loops back to IDLE (nothing was received, or the body is not JSON),
    and then the trace is left as it was.  For one event received in IDLE,
    whose severity is a number, six visits bring the machine back to IDLE
    and add six entries, tagged IDLE, ANALYZING, PLANNING, RESPONDING,
    MONITORING, COMPLETED in this order. *)
Theorem trace_entry_per_handover :
  (forall st msg a st' a',
      fsm_step json_loads clock st msg a = (Ret st', a') ->
      (st = STATE_IDLE /\ st' = STATE_IDLE /\ fsm_trace a' = fsm_trace a
       /\ (msg = None
           \/ exists m, msg = Some m
                        /\ loads_body json_loads (body m) = Raise JSONDecodeError))
      \/ (st' = next_state st /\ visit_recorded st a a'))
  /\ (forall m d n a,
         loads_body json_loads (body m) = Ret (JObj d) ->
         as_num (event_severity d) = Some n ->
         exists a' entries,
           fsm_run json_loads clock 6 [Some m] STATE_IDLE a = (Ret STATE_IDLE, a')
           /\ fsm_trace a' = fsm_trace a ++ entries
           /\ map entry_state entries = tags cycle).
Proof.
  split.
  - intros st msg a st' a' H. apply fsm_step_returns in H.
    destruct H as [(H1 & H2 & H3 & _ & H4)|H]; [left|right]; auto.
  - intros m d n a Hm Hn.
    destruct (full_cycle m d n a Hm Hn) as (a' & entries & H1 & H2 & H3 & _).
    exists a', entries. auto.
Qed.

(** What IDLE does with a body, by what the decoder makes of it: text
    the decoder rejects is logged as an error and dropped, and the machine
    stays in IDLE with the event, the goals and the trace as they were; a
    body that decodes to a value other than an object is stored as the
    current event and the visit raises AttributeError; any other exception
    of the decoder leaves the visit too. *)
Lemma idle_handles_decode_errors_only (m : Message) (a : agent) :
  (loads_body json_loads (body m) = Raise JSONDecodeError ->
   IdleState_run json_loads clock (Some m) a =
     (Ret STATE_IDLE,
      mkAgent (current_event a) (goals a) (fsm_trace a) (clock_reads a)
              (log a ++ [(INFO, WaitingForAlerts); (WARNING, AlertReceived);
                         (ERROR, FailedToParse)])))
  /\ (forall v, loads_body json_loads (body m) = Ret v -> is_dict v = false ->
        IdleState_run json_loads clock (Some m) a =
          (Raise AttributeError,
           mkAgent v (goals a) (fsm_trace a) (S (clock_reads a))
                   (log a ++ [(INFO, WaitingForAlerts); (WARNING, AlertReceived)])))
  /\ (forall e, loads_body json_loads (body m) = Raise e -> e <> JSONDecodeError ->
        fst (IdleState_run json_loads clock (Some m) a) = Raise e).
Proof.
  split; [apply idle_undecodable|]. split; [intros v; apply idle_not_a_dict|].
  intros e H He. now rewrite (idle_other_error m e a H He).
Qed.

(** *** Reachable configurations *)

Lemma reachable_has_goals st a :
  reachable json_loads clock st a ->
  match st with
  | STATE_IDLE | STATE_ANALYZING => True
  | _ => (1 <= List.length (goals a))%nat
  end.
Proof.
  induction 1 as [|st a msg st' a' Hr IH Hstep]; [exact I|].
  destruct st; simpl in Hstep.
  - apply idle_returns in Hstep. destruct Hstep as [(-> & _)|(-> & _)]; exact I.
  - apply analyzing_returns in Hstep. destruct Hstep as (-> & _ & L). exact L.
  - apply planning_returns in Hstep.
    destruct Hstep as (-> & ts & ac & k & _ & L). simpl in *. lia.
  - apply responding_returns in Hstep.
    destruct Hstep as (-> & ts & ac & k & _ & L). simpl in *. lia.
  - apply monitoring_returns in Hstep.
    destruct Hstep as (-> & ts & ac & k & _ & L). simpl in *. lia.
  - apply completed_returns in Hstep. destruct Hstep as (-> & _). exact I.
Qed.

Lemma fsm_run_reachable fuel : forall inbox st a st' a',
  reachable json_loads clock st a ->
  fsm_run json_loads clock fuel inbox st a = (Ret st', a') ->
  reachable json_loads clock st' a'.
Proof.
  induction fuel as [|fuel IH]; intros inbox st a st' a' Hr Hrun.
  - simpl in Hrun. injection Hrun as <- <-. exact Hr.
  - assert (forall msg rest,
              bind (fsm_step json_loads clock st msg)
                   (fsm_run json_loads clock fuel rest) a = (Ret st', a') ->
              reachable json_loads clock st' a') as Hgo.
    { intros msg rest. unfold bind.
      destruct (fsm_step json_loads clock st msg a) as [[st1|e] a1] eqn:E; [|discriminate].
      intros Hrest. eapply IH; [|exact Hrest]. eapply reach_step; eauto. }
    cbn [fsm_run] in Hrun. destruct st, inbox; eauto.
Qed.

(** C10. In every configuration the machine can reach in MONITORING the
    agent has at least one goal, so the ratio of completed to total goals is
    defined: the visit returns, with the total in its trace entry. *)
Theorem monitoring_divides_by_at_least_one (a : agent) :
  reachable json_loads clock STATE_MONITORING a ->
  (1 <= List.length (goals a))%nat
  /\ exists a',
       MonitoringState_run clock a = (Ret STATE_COMPLETED, a')
       /\ dict_get "total_goals" (last (fsm_trace a') [])
          = Some (JInt (Z.of_nat (List.length (goals a)))).
Proof.
  intros Hr. pose proof (reachable_has_goals _ _ Hr) as H. simpl in H.
  split; [exact H|].
  unfold MonitoringState_run, bind, get, lift, now, trace_append, modify, ret.
  destruct (goals a) as [|g gs] eqn:E; [simpl in H; lia|]. cbn.
  eexists. split; [reflexivity|]. cbn [fsm_trace]. rewrite last_last. reflexivity.
Qed.

End Lab3Facts.

(** ** Lab 4 *)

Section Lab4Facts.
Import Lab4.
Variable json_loads : string -> outcome json.
Variable json_dumps : json -> outcome string.
Variable clock : nat -> string.

Lemma request_message_spec r data eid sev needed b a :
  dict_get "event_id" data = Some (JStr eid) ->
  json_dumps (JObj [("event_id", JStr eid);
                    ("disaster_type", match dict_get "disaster_type" data with
                                      | Some v => v | None => JNull end);
                    ("severity", sev);
                    ("resources_requested", JObj needed)]) = Ret b ->
  request_message json_dumps r (JObj data) sev needed a =
    (Ret (mkMessage r "" (Some b) (request_metadata eid)), a).
Proof.
  intros He Hb. unfold request_message, bind, lift, ret. simpl.
  rewrite He. simpl. rewrite Hb. reflexivity.
Qed.

(** The coordinator's requests for decoded alert data: one per agent of
    [rescue_agents], all with the same body and metadata. *)
Lemma request_rescue_resources_spec
    (a : agent) (data : dict) (s : Z) (eid b : string) (c : json) :
  py_get (JObj data) "severity" (JInt 1) = Ret (JInt s) ->
  dict_get "event_id" data = Some (JStr eid) ->
  json_dumps (JObj [("event_id", JStr eid);
                    ("disaster_type", match dict_get "disaster_type" data with
                                      | Some v => v | None => JNull end);
                    ("severity", JInt s);
                    ("resources_requested", resources_dict (2 * s) s (3 * s))]) = Ret b ->
  json_loads b = Ret c ->
  exists a',
    _request_rescue_resources json_loads json_dumps clock (JObj data) a = (Ret tt, a')
    /\ sent a' = sent a ++ map (fun r => mkMessage r (jid a) (Some b) (request_metadata eid))
                             (rescue_agents a)
    /\ List.length (sent a') = (List.length (sent a) + List.length (rescue_agents a))%nat
    /\ message_log a' = message_log a
                        ++ request_logs clock (clock_reads a) (jid a) c (JStr eid) (rescue_agents a)
    /\ available_resources a' = available_resources a
    /\ rescue_agents a' = rescue_agents a.
Proof.
  intros Hs He Hb Hc.
  unfold _request_rescue_resources.
  unfold bind at 1, lift at 1. rewrite Hs.
  unfold bind at 1, lift at 1, py_mul_int.
  unfold bind at 1, lift at 1.
  unfold bind at 1, lift at 1.
  unfold bind at 1, get.
  replace (s * 2) with (2 * s) by lia. replace (s * 1) with s by lia.
  replace (s * 3) with (3 * s) by lia.
  fold (resources_dict (2 * s) s (3 * s)) in Hb.
  set (needed := [("rescue_teams", JInt (2 * s)); _; _]) in *.
  assert (forall l a0,
    for_each l (request_turn json_loads json_dumps clock (JObj data) (JInt s) needed) a0
    = (Ret tt,
       mkAgent (jid a0) (name a0)
               (message_log a0 ++ request_logs clock (clock_reads a0) (jid a0) c (JStr eid) l)
               (rescue_agents a0) (available_resources a0)
               (sent a0 ++ map (fun r => mkMessage r (jid a0) (Some b) (request_metadata eid)) l)
               (List.length l + clock_reads a0))) as Hloop.
  { induction l as [|r l IH]; intros a0.
    - simpl. unfold ret. rewrite !app_nil_r. now destruct a0.
    - cbn [for_each]. unfold bind at 1.
      assert (request_turn json_loads json_dumps clock (JObj data) (JInt s) needed r a0
              = (Ret tt,
                 mkAgent (jid a0) (name a0)
                   (message_log a0 ++
                      [mkLog (clock (clock_reads a0)) (jid a0) r (Some REQUEST)
                             (Some RESOURCE_REQUEST) c (JStr eid)])
                   (rescue_agents a0) (available_resources a0)
                   (sent a0 ++ [mkMessage r (jid a0) (Some b) (request_metadata eid)])
                   (S (clock_reads a0)))) as ->.
      { unfold request_turn. unfold bind at 1.
        rewrite (request_message_spec r data eid (JInt s) needed b a0 He Hb).
        unfold bind, send, modify, get, now, lift, log_append. cbn.
        rewrite Hc, He. reflexivity. }
      rewrite IH. cbn.
      rewrite <- !app_assoc. repeat f_equal. lia. }
  rewrite Hloop.
  eexists. split; [reflexivity|]. cbn.
  repeat split. rewrite List.length_app, List.length_map. reflexivity.
Qed.


(** The responder's handling of a decoded request with integer amounts. *)
Lemma handle_resource_request_spec
    (a : agent) (m : Message) (request req : dict)
    (r1 r2 r3 h1 h2 h3 : Z) (eid b : string) (c : json) :
  loads_body json_loads (body m) = Ret (JObj request) ->
  py_get (JObj request) "resources_requested" (JObj []) = Ret (JObj req) ->
  py_get (JObj req) "rescue_teams" (JInt 0) = Ret (JInt r1) ->
  py_get (JObj req) "medical_units" (JInt 0) = Ret (JInt r2) ->
  py_get (JObj req) "equipment" (JInt 0) = Ret (JInt r3) ->
  available_resources a = mkResources (PInt h1) (PInt h2) (PInt h3) ->
  dict_get "event_id" request = Some (JStr eid) ->
  json_dumps (JObj [("event_id", JStr eid);
                    ("agent_id", JStr (name a));
                    ("status", JStr "resources_allocated");
                    ("resources_available",
                     resources_dict (Z.min r1 h1) (Z.min r2 h2) (Z.min r3 h3))]) = Ret b ->
  json_loads b = Ret c ->
  exists a',
    _handle_resource_request json_loads json_dumps clock m a = (Ret tt, a')
    /\ available_resources a'
       = mkResources (PInt (h1 - Z.min r1 h1)) (PInt (h2 - Z.min r2 h2))
                     (PInt (h3 - Z.min r3 h3))
    /\ sent a' = sent a ++ [mkMessage (sender m) (jid a) (Some b) (response_metadata eid)]
    /\ message_log a'
       = message_log a ++ [mkLog (clock (clock_reads a)) (jid a) (sender m) (Some INFORM)
                                 (Some RESOURCE_RESPONSE) c (JStr eid)].
Proof.
  intros Hm Hreq H1 H2 H3 Hheld He Hb Hc.
  assert (py_get (JObj request) "event_id" JNull = Ret (JStr eid)) as Hev
    by (simpl; now rewrite He).
  unfold _handle_resource_request.
  unfold bind at 1, lift at 1. rewrite Hm.
  unfold bind at 1, lift at 1. rewrite Hev.
  unfold bind at 1, lift at 1. rewrite Hreq.
  unfold bind at 1, get. rewrite Hheld. cbn [rescue_teams medical_units equipment].
  unfold bind at 1, lift at 1. rewrite H1.
  unfold bind at 1, lift at 1. rewrite py_min_with_int.
  unfold bind at 1, lift at 1. rewrite H2.
  unfold bind at 1, lift at 1. rewrite py_min_with_int.
  unfold bind at 1, lift at 1. rewrite H3.
  unfold bind at 1, lift at 1. rewrite py_min_with_int.
  unfold take, bind, get, lift, set_resources, modify, send, now, log_append, ret.
  cbn -[py_get Z.min Z.sub]. rewrite Hheld. cbn -[py_get Z.min Z.sub].
  fold (resources_dict (Z.min r1 h1) (Z.min r2 h2) (Z.min r3 h3)).
  rewrite Hb. cbn -[py_get Z.min Z.sub]. rewrite Hc.
  eexists. split; [reflexivity|]. cbn -[Z.min Z.sub]. auto.
Qed.

Lemma log_received_spec m bd v a :
  body m = Some bd -> bd <> EmptyString -> json_loads bd = Ret v ->
  log_received json_loads clock m a = (Ret tt, after_receipt clock m v a).
Proof.
  intros Hb Hne Hv.
  unfold log_received, bind, get, now, lift, log_append, modify, after_receipt.
  rewrite Hb. destruct bd as [|ch bd]; [congruence|]. cbn. rewrite Hv. reflexivity.
Qed.

(** C4. For every disaster alert the coordinator receives (an inform
    message of type disaster_alert whose body decodes to an object) with an
    integer severity [s] and a string event id, it sends exactly one request
    to each agent of [rescue_agents], in order, and nothing else: as many
    messages as there are responders, two for the two responders of
    [setup].  Every request has the same body, the encoding of the event id,
    the disaster type, the severity and the amounts rescue_teams = 2s,
    medical_units = s, equipment = 3s; and the same metadata: performative
    request, type resource_request, and the event id as conversation id. *)
Theorem coordinator_requests_every_responder
    (a : agent) (m : Message) (bd : string) (data : dict) (s : Z)
    (eid b : string) (c : json) :
  get_metadata "performative" (metadata m) = Some INFORM ->
  get_metadata "message_type" (metadata m) = Some DISASTER_ALERT ->
  body m = Some bd -> bd <> EmptyString -> json_loads bd = Ret (JObj data) ->
  py_get (JObj data) "severity" (JInt 1) = Ret (JInt s) ->
  dict_get "event_id" data = Some (JStr eid) ->
  json_dumps (JObj [("event_id", JStr eid);
                    ("disaster_type", match dict_get "disaster_type" data with
                                      | Some v => v | None => JNull end);
                    ("severity", JInt s);
                    ("resources_requested", resources_dict (2 * s) s (3 * s))]) = Ret b ->
  json_loads b = Ret c ->
  exists a',
    ReceiveAlertBehaviour_run json_loads json_dumps clock (Some m) a = (Ret tt, a')
    /\ sent a' = sent a ++ map (fun r => mkMessage r (jid a) (Some b) (request_metadata eid))
                             (rescue_agents a)
    /\ List.length (sent a') = (List.length (sent a) + List.length (rescue_agents a))%nat
    /\ (rescue_agents a = rescue_agents (command_center_setup (jid a)) ->
        List.length (sent a') = (List.length (sent a) + 2)%nat)
    /\ rescue_agents a' = rescue_agents a.
Proof.
  intros Hp Ht Hb Hne Hd Hs He Hdump Hc.
  destruct (request_rescue_resources_spec (after_receipt clock m (JObj data) a)
              data s eid b c Hs He Hdump Hc) as (a' & Hrun & Hsent & Hlen & _ & _ & Hra).
  exists a'. split; [|split; [exact Hsent|split; [exact Hlen|split; [|exact Hra]]]].
  - unfold ReceiveAlertBehaviour_run. unfold bind at 1.
    rewrite (log_received_spec m bd (JObj data) a Hb Hne Hd), Hp, Ht. cbn [opt_eqb].
    unfold INFORM, DISASTER_ALERT. cbn [String.eqb Ascii.eqb Bool.eqb andb].
    unfold _handle_disaster_alert. unfold bind at 1, lift at 1, loads_body.
    rewrite Hb, Hd. unfold bind at 1, lift at 1. cbn [py_get].
    exact Hrun.
  - intros Hra2. rewrite Hlen. cbn [after_receipt sent rescue_agents]. now rewrite Hra2.
Qed.

(** C3. For every resource request a responder receives (a request message
    of type resource_request whose body decodes to an object) with integer
    amounts, a missing amount counting as 0, a responder holding integer
    amounts grants, for each resource, the minimum of what is requested and
    what it holds; it takes exactly that from its pool; and it answers the
    sender with one inform message of type resource_response whose body
    encodes the event id, its name, the status resources_allocated and the
    granted amounts. *)
Theorem responder_grants_min_of_requested_and_held
    (a : agent) (m : Message) (bd : string) (request req : dict)
    (r1 r2 r3 h1 h2 h3 : Z) (eid b : string) (c : json) :
  get_metadata "performative" (metadata m) = Some REQUEST ->
  get_metadata "message_type" (metadata m) = Some RESOURCE_REQUEST ->
  body m = Some bd -> bd <> EmptyString -> json_loads bd = Ret (JObj request) ->
  py_get (JObj request) "resources_requested" (JObj []) = Ret (JObj req) ->
  py_get (JObj req) "rescue_teams" (JInt 0) = Ret (JInt r1) ->
  py_get (JObj req) "medical_units" (JInt 0) = Ret (JInt r2) ->
  py_get (JObj req) "equipment" (JInt 0) = Ret (JInt r3) ->
  available_resources a = mkResources (PInt h1) (PInt h2) (PInt h3) ->
  dict_get "event_id" request = Some (JStr eid) ->
  json_dumps (JObj [("event_id", JStr eid);
                    ("agent_id", JStr (name a));
                    ("status", JStr "resources_allocated");
                    ("resources_available",
                     resources_dict (Z.min r1 h1) (Z.min r2 h2) (Z.min r3 h3))]) = Ret b ->
  json_loads b = Ret c ->
  exists a',
    ReceiveRequestBehaviour_run json_loads json_dumps clock (Some m) a = (Ret tt, a')
    /\ available_resources a'
       = mkResources (PInt (h1 - Z.min r1 h1)) (PInt (h2 - Z.min r2 h2))
                     (PInt (h3 - Z.min r3 h3))
    /\ sent a' = sent a ++ [mkMessage (sender m) (jid a) (Some b) (response_metadata eid)].
Proof.
  intros Hp Ht Hb Hne Hd Hreq H1 H2 H3 Hheld He Hdump Hc.
  destruct (handle_resource_request_spec (after_receipt clock m (JObj request) a) m
              request req r1 r2 r3 h1 h2 h3 eid b c) as (a' & Hrun & Hres & Hsent & _);
    try assumption.
  { unfold loads_body. now rewrite Hb. }
  exists a'. split; [|split; [exact Hres|exact Hsent]].
  unfold ReceiveRequestBehaviour_run. unfold bind at 1.
  rewrite (log_received_spec m bd (JObj request) a Hb Hne Hd), Hp, Ht. cbn [opt_eqb].
  unfold REQUEST, RESOURCE_REQUEST. cbn [String.eqb Ascii.eqb Bool.eqb andb].
  exact Hrun.
Qed.

End Lab4Facts.

(* ------------------------------------------------------------------ *)
(** ** The properties on sample inputs                                 *)
(* ------------------------------------------------------------------ *)

Import Samples.

(** PLANNING for the event of severity 5: five goals after the one the
    agent has. *)
Lemma planning_goals_by_severity_witness :
  exists new a',
    Lab3.PlanningState_run sample_clock planning_agent
    = (Ret Lab3.STATE_RESPONDING, a')
    /\ Lab3.goals a' = Lab3.goals planning_agent ++ new
    /\ map Lab3.goal_summary new
       = [(Lab3.DEPLOY_RESOURCES, 5, "pending"%string);
          (Lab3.EVACUATE_CIVILIANS, 5, "pending"%string);
          (Lab3.PROVIDE_MEDICAL_AID, 4, "pending"%string);
          (Lab3.RESTORE_INFRASTRUCTURE, 3, "pending"%string);
          (Lab3.MONITOR_RECOVERY, 2, "pending"%string)]
    /\ map Lab3.goal_id new
       = ["GOAL-002"; "GOAL-003"; "GOAL-004"; "GOAL-005"; "GOAL-006"]%string.
Proof.
  destruct (planning_goals_by_severity sample_clock planning_agent critical_event 5
              eq_refl eq_refl) as (new & a' & H1 & H2 & H3 & H4 & _).
  exists new, a'. split; [exact H1|]. split; [exact H2|]. split; [exact H3|].
  rewrite H4, <- (List.length_map Lab3.goal_summary new), H3. reflexivity.
Defined.

(** The responder holding 5, 5 and 7 is asked for 8, 3 and 9: it grants 5,
    3 and 7 and is left with 0, 2 and 0. *)
Lemma responder_grants_min_of_requested_and_held_witness :
  exists a',
    Lab4.ReceiveRequestBehaviour_run Json.loads Json.dumps_plain sample_clock
      (Some sample_request_message) sample_responder = (Ret tt, a')
    /\ Lab4.available_resources a' = Lab4.mkResources (PInt 0) (PInt 2) (PInt 0)
    /\ map (fun m => match body m with
                     | Some b => match Json.loads b with
                                 | Ret v => (Lab4.granted "rescue_teams" v,
                                             Lab4.granted "medical_units" v,
                                             Lab4.granted "equipment" v)
                                 | Raise _ => (None, None, None)
                                 end
                     | None => (None, None, None)
                     end) (Lab4.sent a')
       = [(Some (JInt 5), Some (JInt 3), Some (JInt 7))].
Proof.
  edestruct (responder_grants_min_of_requested_and_held
               Json.loads Json.dumps_plain sample_clock
               sample_responder sample_request_message)
    as (a' & H1 & H2 & H3);
    [vm_compute; reflexivity | vm_compute; reflexivity | vm_compute; reflexivity
    | discriminate | vm_compute; reflexivity ..|].
  exists a'. split; [exact H1|]. split; [exact H2|].
  rewrite H3. vm_compute. reflexivity.
Defined.

(** The coordinator with its two responders receives the alert the sensor
    sends for a flood of severity 3: two requests, both for 6 teams, 3 units
    and 9 pieces of equipment and both in the conversation of the event. *)
Lemma coordinator_requests_every_responder_witness :
  exists a',
    Lab4.ReceiveAlertBehaviour_run Json.loads Json.dumps_plain sample_clock
      (Some sensor_alert) (Lab4.command_center_setup "command@localhost")
    = (Ret tt, a')
    /\ map to (Lab4.sent a') = ["rescue1@localhost"; "rescue2@localhost"]%string
    /\ map (fun m => get_metadata "conversation-id" (metadata m)) (Lab4.sent a')
       = [Some "EVENT-1234"; Some "EVENT-1234"]%string
    /\ map (fun m => match body m with
                     | Some b => match Json.loads b with
                                 | Ret (JObj d) => dict_get "resources_requested" d
                                 | _ => None
                                 end
                     | None => None
                     end) (Lab4.sent a')
       = [Some (Lab4.resources_dict 6 3 9); Some (Lab4.resources_dict 6 3 9)].
Proof.
  edestruct (coordinator_requests_every_responder
               Json.loads Json.dumps_plain sample_clock
               (Lab4.command_center_setup "command@localhost") sensor_alert)
    as (a' & H1 & H2 & _);
    [vm_compute; reflexivity | vm_compute; reflexivity | vm_compute; reflexivity
    | discriminate | vm_compute; reflexivity ..|].
  exists a'. split; [exact H1|].
  rewrite H2. vm_compute. repeat split.
Defined.

(** One alert of severity 3 received in IDLE after [setup]: six entries. *)
Lemma trace_entry_per_handover_witness :
  exists a',
    Lab3.fsm_run Json.loads sample_clock 6 [Some sample_alert] Lab3.STATE_IDLE Lab3.setup
    = (Ret Lab3.STATE_IDLE, a')
    /\ map Lab3.entry_state (Lab3.fsm_trace a') = Lab3.tags Lab3.cycle.
Proof.
  destruct (proj2 (trace_entry_per_handover Json.loads sample_clock)
              sample_alert sample_event (PInt 3) Lab3.setup)
    as (a' & entries & H1 & H2 & H3); [vm_compute; reflexivity ..|].
  exists a'. split; [exact H1|]. rewrite H2. exact H3.
Defined.

(** Against C6 as stated: two visits to IDLE that append no entry, one that
    times out and one whose message is not JSON. *)
Lemma idle_loop_leaves_no_entry :
  Lab3.fsm_step Json.loads sample_clock Lab3.STATE_IDLE None Lab3.setup
  = (Ret Lab3.STATE_IDLE,
     Lab3.mkAgent JNull [] [] 0 [(Lab3.INFO, Lab3.WaitingForAlerts)])
  /\ Lab3.fsm_step Json.loads sample_clock Lab3.STATE_IDLE (Some garbled_alert) Lab3.setup
     = (Ret Lab3.STATE_IDLE,
        Lab3.mkAgent JNull [] [] 0
          [(Lab3.INFO, Lab3.WaitingForAlerts); (Lab3.WARNING, Lab3.AlertReceived);
           (Lab3.ERROR, Lab3.FailedToParse)]).
Proof. split; vm_compute; reflexivity. Qed.

(** C7 at a body that is JSON but no event: the list is stored as the
    current event, the visit raises AttributeError, and no error is logged. *)
Theorem idle_raises_on_list_body :
  Json.loads "[]" = Ret (JArr [])
  /\ Lab3.IdleState_run Json.loads sample_clock (Some list_alert) Lab3.setup
     = (Raise AttributeError,
        Lab3.mkAgent (JArr []) [] [] 1
          [(Lab3.INFO, Lab3.WaitingForAlerts); (Lab3.WARNING, Lab3.AlertReceived)]).
Proof. split; vm_compute; reflexivity. Qed.

(** Against C8 as stated: two different alerts of the protocol's sensor
    with one identifier, and a later alert with a smaller one. *)
Lemma sensor_ids_repeat :
  Lab4._generate_disaster draw_a <> Lab4._generate_disaster draw_b
  /\ dict_get "event_id" (Lab4._generate_disaster draw_a) = Some (JStr "EVENT-1234")
  /\ dict_get "event_id" (Lab4._generate_disaster draw_b) = Some (JStr "EVENT-1234")
  /\ dict_get "event_id" (Lab4._generate_disaster draw_c) = Some (JStr "EVENT-1000").
Proof.
  split; [discriminate|]. repeat split.
Qed.

(** The agent in MONITORING after the alert of severity 3: four goals. *)
Lemma monitoring_divides_by_at_least_one_witness :
  (1 <= List.length (Lab3.goals monitoring_agent))%nat
  /\ exists a',
       Lab3.MonitoringState_run sample_clock monitoring_agent
       = (Ret Lab3.STATE_COMPLETED, a')
       /\ dict_get "total_goals" (last (Lab3.fsm_trace a') [])
          = Some (JInt (Z.of_nat (List.length (Lab3.goals monitoring_agent)))).
Proof.
  apply (monitoring_divides_by_at_least_one Json.loads sample_clock).
  apply (fsm_run_reachable Json.loads sample_clock 4 [Some sample_alert]
           Lab3.STATE_IDLE Lab3.setup);
    [apply Lab3.reach_setup | vm_compute; reflexivity].
Defined.
